(** * PyTROModelling: neural-network recipes (src/ANN.py) and kernel
    approximation (examples/model_order_reduction/kernelApproximation.py)

    A shallow embedding of the three recipe classes of [ANN.py]
    ([MLP_classifier], [Autoencoder], [MLP_regressor]) as state-passing
    programs over the object and the process environment, and of the
    [Kernel_approximation] component that the example script drives. *)

From Stdlib Require Import ZArith QArith List String Bool Lia Permutation.
From Stdlib Require Import Qround DecimalString.
From Stdlib Require Floats.
Import ListNotations.

Open Scope string_scope.
Open Scope Z_scope.

(* ================================================================== *)
(** ** Python values *)
(* ================================================================== *)

(** A Python [float] is an IEEE double: a rational number, an infinity or
    NaN.  Only comparisons against the integer constants [0] and [1] are
    performed on floats by [ANN.py]; they are exact. *)
Inductive pyfloat : Type :=
| FNum (q : Q)
| FInf (negative : bool)
| FNaN.

(** The objects that reach the setters of the recipes. [VLeakyReLU] is
    the [LeakyReLU(alpha=...)] layer object whose [__name__] attribute
    has been overwritten. *)
Inductive pyval : Type :=
| VNone
| VInt (z : Z)
| VFloat (f : pyfloat)
| VStr (s : string)
| VLeakyReLU (alpha : Q) (name : string).

(** What the [_dropout] attribute can hold: the integer literal [0] of
    [__init__] or a float stored by the setter. *)
Inductive number : Type :=
| Int (z : Z)
| Float (f : pyfloat).

Inductive exn : Type :=
| Exception (msg : string)
| AssertionError (msg : string)
| AttributeError (attr : string)
| TypeError (msg : string)
| ValueError (msg : string)
| KeyError (key : string)
| IndexError (msg : string)
| NameError (name : string)
| UnboundLocalError (name : string)
| FileExistsError (path : string)
| ConfigurationError (msg : string).

Definition result (A : Type) : Type := (exn + A)%type.

(** [f < z], [f >= z] and [f != z] for a float [f] and an int literal [z];
    every ordered comparison with NaN is false, and NaN differs from
    everything. *)
Definition float_lt (f : pyfloat) (z : Z) : bool :=
  match f with
  | FNum q => negb (Qle_bool (inject_Z z) q)
  | FInf negative => negative
  | FNaN => false
  end.

Definition float_ge (f : pyfloat) (z : Z) : bool :=
  match f with
  | FNum q => Qle_bool (inject_Z z) q
  | FInf negative => negb negative
  | FNaN => false
  end.

Definition float_ne (f : pyfloat) (z : Z) : bool :=
  match f with
  | FNum q => negb (Qeq_bool q (inject_Z z))
  | FInf _ => true
  | FNaN => true
  end.

Definition number_lt (n : number) (z : Z) : bool :=
  match n with
  | Int i => i <? z
  | Float f => float_lt f z
  end.

Definition number_ge (n : number) (z : Z) : bool :=
  match n with
  | Int i => z <=? i
  | Float f => float_ge f z
  end.

Definition number_ne (n : number) (z : Z) : bool :=
  match n with
  | Int i => negb (i =? z)
  | Float f => float_ne f z
  end.

(** [str.format] of an int. *)
Definition format_int (z : Z) : string := NilZero.string_of_int (Z.to_int z).

(** The line feed (character 10) that the recap texts end in. *)
Definition newline : string :=
  String (Ascii.Ascii false true false true false false false false) EmptyString.

(** Modelled from the spec: the [accepts] decorator of the [utilities]
    module, which is not part of the sources.  The spec describes it as a
    runtime decorator enforcing argument types: the decorated setter body
    runs only when the new value is an instance of the declared type. *)
Definition accepts_int (v : pyval) : result Z :=
  match v with
  | VInt z => inr z
  | _ => inl (AssertionError "argument does not match <class 'int'>")
  end.

Definition accepts_float (v : pyval) : result pyfloat :=
  match v with
  | VFloat f => inr f
  | _ => inl (AssertionError "argument does not match <class 'float'>")
  end.

(* ================================================================== *)
(** ** Arrays, layers and the process environment *)
(* ================================================================== *)

(** A two-dimensional numpy array: its shape and its rows. *)
Record ndarray : Type := mk_ndarray {
  shape0 : nat;
  shape1 : nat;
  rows : list (list Q)
}.

(** Keras layers as the recipes construct them.  The constructors are
    taken to return whatever their arguments; what is proved of the
    networks is proved of layers that Keras accepts. *)
Inductive layer : Type :=
| Input (shape : nat)
| Dense (units : Z) (activation : pyval)
        (kernel_initializer : option string) (input_dim : option nat)
| Dropout (rate : number).

(** Everything a recipe does to the outside world, in program order. *)
Inductive event : Type :=
| EPrint (text : string)
| EMkdir (path : string)
| EChdir (path : string)
| EOpen (path : string)
| EWrite (path : string) (text : string)
| EClose (path : string)
| ESummary (net : list layer)
| ETrain (net : list layer) (batch_size epochs : Z)
| ELoadWeights (path : string)
| EPredict (input : ndarray)
| EPlot (key : string)
| EFigure (call : string) (arg : string)
| ESavefig (path : string)
| EShow
| ESavetxt (path : string).

(** The process environment: current working directory, the directories
    that exist, the wall clock already formatted by
    [strftime("%Y_%m_%d-%H%M")], and the trace of effects so far (oldest
    first). *)
Record World : Type := mk_World {
  cwd : string;
  dirs : list string;
  clock : string;
  trace : list event
}.

Definition path_join (dir name : string) : string := dir ++ "/" ++ name.

Definition emit_world (e : event) (w : World) : World :=
  mk_World (cwd w) (dirs w) (clock w) (trace w ++ [e])%list.

(* ================================================================== *)
(** ** A state and exception monad *)
(* ================================================================== *)

(** A method of an object of type [O]: it runs on the object and the
    world, and either raises or returns.  The state survives a raise:
    whatever was assigned before the exception stays assigned. *)
Definition M (O A : Type) : Type := O * World -> result A * (O * World).

Definition ret {O A} (a : A) : M O A := fun s => (inr a, s).

Definition raise {O A} (e : exn) : M O A := fun s => (inl e, s).

Definition bind {O A B} (m : M O A) (k : A -> M O B) : M O B :=
  fun s =>
    match m s with
    | (inl e, s') => (inl e, s')
    | (inr a, s') => k a s'
    end.

Declare Scope py_scope.
Delimit Scope py_scope with py.
Notation "x <- m ;; k" := (bind m (fun x => k))
  (at level 61, m at next level, right associativity) : py_scope.
Notation "m ;; k" := (bind m (fun _ => k))
  (at level 61, right associativity) : py_scope.
Open Scope py_scope.

Definition lift {O A} (r : result A) : M O A :=
  fun s => (r, s).

Definition get_self {O} : M O O := fun s => (inr (fst s), s).

Definition set_self {O} (f : O -> O) : M O unit :=
  fun s => (inr tt, (f (fst s), snd s)).

Definition get_world {O} : M O World := fun s => (inr (snd s), s).

Definition set_world {O} (f : World -> World) : M O unit :=
  fun s => (inr tt, (fst s, f (snd s))).

Definition emit {O} (e : event) : M O unit := set_world (emit_world e).

Definition outcome {O A} (r : result A * (O * World)) : result A := fst r.
Definition self_after {O A} (r : result A * (O * World)) : O := fst (snd r).
Definition world_after {O A} (r : result A * (O * World)) : World := snd (snd r).

(** [os.mkdir(name)] relative to the working directory. *)
Definition os_mkdir {O} (name : string) : M O unit :=
  w <- get_world ;;
  let p := path_join (cwd w) name in
  if existsb (String.eqb p) (dirs w)
  then raise (FileExistsError p)
  else
    set_world (fun w => mk_World (cwd w) (p :: dirs w) (clock w) (trace w)) ;;
    emit (EMkdir p).

(** [os.chdir(name)] relative to the working directory. *)
Definition os_chdir {O} (name : string) : M O unit :=
  w <- get_world ;;
  let p := path_join (cwd w) name in
  set_world (fun w => mk_World p (dirs w) (clock w) (trace w)) ;;
  emit (EChdir p).

(** [open(name, "wt")], [write] and [close] on a file in the working
    directory. *)
Definition file_open {O} (name : string) : M O string :=
  w <- get_world ;;
  let p := path_join (cwd w) name in
  emit (EOpen p) ;;
  ret p.

Definition file_write {O} (handle text : string) : M O unit :=
  emit (EWrite handle text).

Definition file_close {O} (handle : string) : M O unit :=
  emit (EClose handle).

(** [s1 + v + s2] on strings: concatenation is defined only when [v] is
    a [str]. *)
Definition str_concat3 (s1 : string) (v : pyval) (s2 : string) : result string :=
  match v with
  | VStr s => inr (s1 ++ s ++ s2)
  | _ => inl (TypeError "can only concatenate str to str")
  end.

(** The activation setter's value: ['leaky_relu'] is replaced by a
    [LeakyReLU] object renamed to ['relu']. *)
Definition new_activation_value (new_activation : pyval) : pyval :=
  match new_activation with
  | VStr s =>
      if String.eqb s "leaky_relu"
      then VLeakyReLU (1 # 10000) "relu"
      else new_activation
  | _ => new_activation
  end.

(* ================================================================== *)
(** ** The external libraries *)
(* ================================================================== *)

(** [history.history]: a dict from metric names to per-epoch series. *)
Definition History : Type := list (string * list Q).

Fixpoint dict_get (h : History) (key : string) : result (list Q) :=
  match h with
  | [] => inl (KeyError key)
  | (k, v) :: rest => if String.eqb k key then inr v else dict_get rest key
  end.

(** What a call of [model.compile(...)] followed by [model.fit(...)]
    hands over to Keras. *)
Record fit_request : Type := mk_fit_request {
  fr_net : list layer;
  fr_optimizer : string;
  fr_loss : string;
  fr_metrics : list string;
  fr_x : ndarray;
  fr_y : ndarray;
  fr_validation_data : ndarray * ndarray;
  fr_batch_size : Z;
  fr_epochs : Z;
  fr_monitor : string;
  fr_patience : Z;
  fr_checkpoint : option string
}.

(** numpy, scikit-learn and Keras are outside the repository: the
    recipes are verified for every behaviour of these calls, including
    the ones that raise. *)
Record Libs : Type := mk_Libs {
  trained : Type;
  np_zeros : nat -> Q -> result ndarray;
  train_test_split :
    ndarray -> ndarray -> result (ndarray * ndarray * ndarray * ndarray);
  keras_fit : fit_request -> result (trained * History);
  keras_submodel : trained -> nat -> trained;
  keras_load_weights : trained -> string -> result trained;
  keras_get_weights : trained -> Z -> result (ndarray * ndarray);
  keras_predict : trained -> ndarray -> result ndarray
}.

(** A name that a function body binds by an [import] statement is local
    to the whole body: reading it on a path that skipped the import
    raises [UnboundLocalError]. *)
Definition local_Dropout (bound : bool) (rate : number) : result layer :=
  if bound then inr (Dropout rate) else inl (UnboundLocalError "Dropout").

(** [while counter < layers: body; counter += 1].  [fuel] bounds the
    number of iterations; [Z.to_nat (layers - counter)] is exact. *)
Fixpoint while_counter {O A} (fuel : nat) (counter layers : Z)
         (body : Z -> A -> M O A) (acc : A) : M O A :=
  match fuel with
  | O => ret acc
  | S fuel' =>
      if counter <? layers
      then acc' <- body counter acc ;;
           while_counter fuel' (counter + 1) layers body acc'
      else ret acc
  end.

Definition iterations (counter layers : Z) : nat := Z.to_nat (layers - counter).

(** The four-line plotting blocks of the fit methods. *)
Definition plot_history {O} (h : History) (train_key val_key : string)
           (title ylabel xlabel legend_loc file : string) : M O unit :=
  s1 <- lift (dict_get h train_key) ;;
  emit (EPlot train_key) ;;
  s2 <- lift (dict_get h val_key) ;;
  emit (EPlot val_key) ;;
  emit (EFigure "title" title) ;;
  emit (EFigure "ylabel" ylabel) ;;
  emit (EFigure "xlabel" xlabel) ;;
  emit (EFigure "legend" legend_loc) ;;
  w <- get_world ;;
  emit (ESavefig (path_join (cwd w) file)) ;;
  emit EShow.

(** The weight dump of [MLP_classifier.fit_network]:
    [layers[counter_saver].get_weights()] and two [np.savetxt]. *)
Definition save_layer (lib : Libs) {O} (m : trained lib) (counter_saver : Z) (_ : unit)
  : M O unit :=
  wb <- lift (keras_get_weights lib m counter_saver) ;;
  w <- get_world ;;
  emit (ESavetxt (path_join (cwd w) ("Weights_HL" ++ format_int counter_saver ++ ".txt"))) ;;
  emit (ESavetxt (path_join (cwd w) ("Biases_HL" ++ format_int counter_saver ++ ".txt"))).

(** What a fit method hands back to its caller. *)
Inductive returned : Type :=
| RNone
| RArray (a : ndarray).

(** Element update [a[ii, jj] = v] of a two-dimensional array. *)
Fixpoint list_update {A} (l : list A) (i : nat) (f : A -> A) : list A :=
  match l, i with
  | [], _ => []
  | x :: rest, O => f x :: rest
  | x :: rest, S i' => x :: list_update rest i' f
  end.

Definition array_set (a : ndarray) (ii jj : nat) (v : Q) : ndarray :=
  mk_ndarray (shape0 a) (shape1 a)
             (list_update (rows a) ii (fun r => list_update r jj (fun _ => v))).

(** The builtin [max] over the rows of a one-column array. *)
Definition py_max (idx : ndarray) : result Q :=
  match map (fun r => hd 0%Q r) (rows idx) with
  | [] => inl (ValueError "max() arg is an empty sequence")
  | x :: rest => inr (fold_left (fun m y => if Qle_bool y m then m else y) rest x)
  end.

(* ================================================================== *)
(** ** class MLP_classifier *)
(* ================================================================== *)

Module MLP_classifier.

Record t : Type := mk {
  X : ndarray;
  Y : ndarray;
  _activation : pyval;
  _batch_size : Z;
  _n_epochs : Z;
  _n_neurons : Z;
  _layers : Z;
  _dropout : number;
  save_txt : bool
}.

Definition with_Y (v : ndarray) (o : t) : t :=
  mk (X o) v (_activation o) (_batch_size o) (_n_epochs o) (_n_neurons o)
     (_layers o) (_dropout o) (save_txt o).
Definition with_activation (v : pyval) (o : t) : t :=
  mk (X o) (Y o) v (_batch_size o) (_n_epochs o) (_n_neurons o)
     (_layers o) (_dropout o) (save_txt o).
Definition with_batch_size (v : Z) (o : t) : t :=
  mk (X o) (Y o) (_activation o) v (_n_epochs o) (_n_neurons o)
     (_layers o) (_dropout o) (save_txt o).
Definition with_n_epochs (v : Z) (o : t) : t :=
  mk (X o) (Y o) (_activation o) (_batch_size o) v (_n_neurons o)
     (_layers o) (_dropout o) (save_txt o).
Definition with_n_neurons (v : Z) (o : t) : t :=
  mk (X o) (Y o) (_activation o) (_batch_size o) (_n_epochs o) v
     (_layers o) (_dropout o) (save_txt o).
Definition with_layers (v : Z) (o : t) : t :=
  mk (X o) (Y o) (_activation o) (_batch_size o) (_n_epochs o) (_n_neurons o)
     v (_dropout o) (save_txt o).
Definition with_dropout (v : number) (o : t) : t :=
  mk (X o) (Y o) (_activation o) (_batch_size o) (_n_epochs o) (_n_neurons o)
     (_layers o) v (save_txt o).

(** [__init__(self, X, Y, save=False)]: the attributes are assigned,
    then the observation counts are compared; a raise leaves the
    caller without an object. *)
Definition init (X Y : ndarray) (save : bool) (w : World) : result t * World :=
  let self := mk X Y (VStr "relu") 64 1000 2 1 (Int 0) save in
  if negb (Nat.eqb (shape0 X) (shape0 Y))
  then (inl (Exception "The number of observations (Input and Output) does not match: please check again your Input/Output. Exiting..."), w)
  else (inr self, w).

Definition neurons_setter (new_number : pyval) : M t unit :=
  new_number <- lift (accepts_int new_number) ;;
  set_self (with_n_neurons new_number) ;;
  self <- get_self ;;
  if _n_neurons self <=? 0
  then raise (Exception "The number of neurons in the hidden layer must be a positive integer. Exiting..")
  else ret tt.

Definition layers_setter (new_number_layers : pyval) : M t unit :=
  new_number_layers <- lift (accepts_int new_number_layers) ;;
  set_self (with_layers new_number_layers) ;;
  self <- get_self ;;
  if _layers self <=? 0
  then raise (Exception "The number hidden layers must be a positive integer. Exiting..")
  else ret tt.

Definition activation_setter (new_activation : pyval) : M t unit :=
  set_self (with_activation (new_activation_value new_activation)).

Definition batch_size_setter (new_batchsize : pyval) : M t unit :=
  new_batchsize <- lift (accepts_int new_batchsize) ;;
  set_self (with_batch_size new_batchsize) ;;
  self <- get_self ;;
  if _batch_size self <=? 0
  then raise (Exception "The batch size must be a positive integer. Exiting..")
  else ret tt.

Definition n_epochs_setter (new_epochs : pyval) : M t unit :=
  new_epochs <- lift (accepts_int new_epochs) ;;
  set_self (with_n_epochs new_epochs) ;;
  self <- get_self ;;
  if _n_epochs self <=? 0
  then raise (Exception "The number of epochs must be a positive integer. Exiting..")
  else ret tt.

Definition dropout_setter (new_value : pyval) : M t unit :=
  new_value <- lift (accepts_float new_value) ;;
  set_self (with_dropout (Float new_value)) ;;
  self <- get_self ;;
  if number_lt (_dropout self) 0
  then raise (Exception "The dropout percentage must be a positive integer. Exiting..")
  else if number_ge (_dropout self) 1
  then raise (Exception "The dropout percentage must be lower than 1. Exiting..")
  else ret tt.

Record hard_parameters : Type := mk_hard {
  activation_output : string;
  path_ : string;
  monitor_early_stop : string;
  optimizer_ : string;
  patience_ : Z;
  loss_classification_ : string;
  metrics_classification_ : string
}.

(** [path_] is [os.getcwd()] at the time of the call. *)
Definition set_hard_parameters : M t hard_parameters :=
  w <- get_world ;;
  ret (mk_hard "softmax" (cwd w) "val_loss" "adam" 5
               "categorical_crossentropy" "accuracy").

Section WithLibs.
Variable lib : Libs.

Definition idx_to_labels (idx : ndarray) : result ndarray :=
  match py_max idx with
  | inl e => inl e
  | inr m =>
      let k := (m + 1)%Q in
      let n_observations := shape0 idx in
      match np_zeros lib n_observations k with
      | inl e => inl e
      | inr labels =>
          inr (fold_left
                 (fun labels ii =>
                    fold_left
                      (fun labels jj =>
                         if Qeq_bool (hd 0%Q (nth ii (rows idx) []))
                                     (inject_Z (Z.of_nat jj))
                         then array_set labels ii jj 1%Q
                         else labels)
                      (seq 0 (Z.to_nat (Qfloor k))) labels)
                 (seq 0 n_observations) labels)
      end
  end.

Definition set_environment : M t unit :=
  w <- get_world ;;
  let newDirName := "Train MLP class - " ++ clock w in
  os_mkdir newDirName ;;
  os_chdir newDirName.

Definition write_recap_text (neuro_number lay_number number_batches : Z)
           (activation_specification : pyval) : M t unit :=
  text_file <- file_open "recap_training.txt" ;;
  file_write text_file
    ("The number of neurons in the implemented architecture is equal to: "
       ++ format_int neuro_number ++ " " ++ newline) ;;
  file_write text_file
    ("The number of hidden layers in the implemented architecture is equal to: "
       ++ format_int lay_number ++ " " ++ newline) ;;
  file_write text_file
    ("The batch size is equal to: " ++ format_int number_batches ++ " " ++ newline) ;;
  line <- lift (str_concat3 "The activation function which was used was: "
                            activation_specification (". " ++ newline)) ;;
  file_write text_file line ;;
  file_close text_file.

(** One turn of the hidden-layer loop. *)
Definition add_hidden (self : t) (Dropout_bound : bool)
           (_ : Z) (classifier : list layer) : M t (list layer) :=
  let classifier :=
    (classifier ++ [Dense (_n_neurons self) (_activation self) None None])%list in
  if number_ne (_dropout self) 0
  then d <- lift (local_Dropout Dropout_bound (_dropout self)) ;;
       ret (classifier ++ [d])%list
  else ret classifier.

(** The construction of the [Sequential] model. *)
Definition build_network (self : t) (input_dimension number_of_classes : nat)
           (activation_output : string) : M t (list layer) :=
  let counter := 1 in
  let classifier :=
    [Dense (_n_neurons self) (_activation self)
           (Some "random_normal") (Some input_dimension)] in
  first <-
    (if number_ne (_dropout self) 0
     then d <- lift (local_Dropout true (_dropout self)) ;;
          emit (EPrint "Dropping out some neurons...") ;;
          ret ((classifier ++ [d])%list, true)
     else ret (classifier, false)) ;;
  let '(classifier, Dropout_bound) := first in
  classifier <- while_counter (iterations counter (_layers self))
                  counter (_layers self)
                  (add_hidden self Dropout_bound) classifier ;;
  ret (classifier ++
         [Dense (Z.of_nat number_of_classes) (VStr activation_output)
                (Some "random_normal") None])%list.

Definition fit_network : M t returned :=
  self <- get_self ;;
  (if Nat.eqb (shape1 (Y self)) 1
   then emit (EPrint "Changing idx shape in the correct format: [n x k]..") ;;
        labels <- lift (idx_to_labels (Y self)) ;;
        set_self (with_Y labels)
   else ret tt) ;;
  set_environment ;;
  self <- get_self ;;
  write_recap_text (_n_neurons self) (_layers self) (_batch_size self)
                   (_activation self) ;;
  split <- lift (train_test_split lib (X self) (Y self)) ;;
  let '(X_train, X_test, y_train, y_test) := split in
  let input_dimension := shape1 (X self) in
  let number_of_classes := shape1 (Y self) in
  hp <- set_hard_parameters ;;
  classifier <- build_network self input_dimension number_of_classes
                  (activation_output hp) ;;
  emit (ESummary classifier) ;;
  emit (ETrain classifier (_batch_size self) (_n_epochs self)) ;;
  fitted <- lift (keras_fit lib
              (mk_fit_request classifier (optimizer_ hp)
                 (loss_classification_ hp) [metrics_classification_ hp]
                 X_train y_train (X_test, y_test)
                 (_batch_size self) (_n_epochs self)
                 (monitor_early_stop hp) (patience_ hp)
                 (Some (path_ hp ++ "/best_weights.h5")))) ;;
  let '(classifier, history) := fitted in
  plot_history history "acc" "val_acc" "Model accuracy" "Accuracy"
               "Epoch number" "lower right" "accuracy_history.eps" ;;
  plot_history history "loss" "val_loss" "Model loss" "Loss"
               "Epoch" "upper right" "loss_history.eps" ;;
  let counter_saver := 0 in
  (if save_txt self
   then while_counter (iterations counter_saver (_layers self))
          counter_saver (_layers self) (save_layer lib classifier) tt
   else ret tt) ;;
  emit (EPredict (X self)) ;;
  test <- lift (keras_predict lib classifier (X self)) ;;
  ret (RArray test).

End WithLibs.

End MLP_classifier.

(* ================================================================== *)
(** ** class Autoencoder *)
(* ================================================================== *)

Module Autoencoder.

(** [save_txt] is an instance attribute that may be absent: reading an
    absent attribute raises [AttributeError]. *)
Record t : Type := mk {
  X : ndarray;
  _n_neurons : Z;
  _activation : pyval;
  _batch_size : Z;
  _n_epochs : Z;
  save_txt : option bool
}.

Definition with_n_neurons (v : Z) (o : t) : t :=
  mk (X o) v (_activation o) (_batch_size o) (_n_epochs o) (save_txt o).
Definition with_activation (v : pyval) (o : t) : t :=
  mk (X o) (_n_neurons o) v (_batch_size o) (_n_epochs o) (save_txt o).
Definition with_batch_size (v : Z) (o : t) : t :=
  mk (X o) (_n_neurons o) (_activation o) v (_n_epochs o) (save_txt o).
Definition with_n_epochs (v : Z) (o : t) : t :=
  mk (X o) (_n_neurons o) (_activation o) (_batch_size o) v (save_txt o).
(** [__init__(self, X, save=False)]: [save] is not used. *)
Definition init (X : ndarray) (save : bool) (w : World) : result t * World :=
  (inr (mk X 1 (VStr "relu") 64 1000 None), w).

Definition neurons_setter (new_number : pyval) : M t unit :=
  new_number <- lift (accepts_int new_number) ;;
  set_self (with_n_neurons new_number) ;;
  self <- get_self ;;
  if _n_neurons self <=? 0
  then raise (Exception "The number of neurons in the hidden layer must be a positive integer. Exiting..")
  else if _n_neurons self >=? Z.of_nat (shape1 (X self))
  then raise (Exception "The reduced dimensionality cannot be larger than the original number of variables. Exiting..")
  else ret tt.

Definition activation_setter (new_activation : pyval) : M t unit :=
  set_self (with_activation (new_activation_value new_activation)).

Definition batch_size_setter (new_batchsize : pyval) : M t unit :=
  new_batchsize <- lift (accepts_int new_batchsize) ;;
  set_self (with_batch_size new_batchsize) ;;
  self <- get_self ;;
  if _batch_size self <=? 0
  then raise (Exception "The batch size must be a positive integer. Exiting..")
  else ret tt.

Definition n_epochs_setter (new_epochs : pyval) : M t unit :=
  new_epochs <- lift (accepts_int new_epochs) ;;
  set_self (with_n_epochs new_epochs) ;;
  self <- get_self ;;
  if _n_epochs self <=? 0
  then raise (Exception "The number of epochs must be a positive integer. Exiting..")
  else ret tt.

(** The attribute read [self.save_txt]. *)
Definition getattr_save_txt : M t bool :=
  self <- get_self ;;
  match save_txt self with
  | Some b => ret b
  | None => raise (AttributeError "save_txt")
  end.

Record hard_parameters : Type := mk_hard {
  activation_output : string;
  path_ : string;
  monitor_early_stop : string;
  optimizer_ : string;
  patience_ : Z;
  loss_function_ : string;
  metrics_ : string
}.

Definition set_hard_parameters : M t hard_parameters :=
  w <- get_world ;;
  ret (mk_hard "linear" (cwd w) "val_loss" "adam" 5 "mse" "accuracy").

Definition set_environment : M t unit :=
  w <- get_world ;;
  let newDirName := "Train Autoencoder - " ++ clock w in
  os_mkdir newDirName ;;
  os_chdir newDirName.

Definition write_recap_text (neuro_number number_batches : Z)
           (activation_specification : pyval) : M t unit :=
  text_file <- file_open "recap_training.txt" ;;
  file_write text_file
    ("The number of neurons in the implemented architecture is equal to: "
       ++ format_int neuro_number ++ " " ++ newline) ;;
  file_write text_file
    ("The batch size is equal to: " ++ format_int number_batches ++ " " ++ newline) ;;
  line <- lift (str_concat3 "The activation function which was used was: "
                            activation_specification (". " ++ newline)) ;;
  file_write text_file line ;;
  file_close text_file.

Section WithLibs.
Variable lib : Libs.

(** [fit] has no [return] statement: it hands back [None]. *)
Definition fit : M t returned :=
  set_environment ;;
  self <- get_self ;;
  write_recap_text (_n_neurons self) (_batch_size self) (_activation self) ;;
  let input_dimension := shape1 (X self) in
  split <- lift (train_test_split lib (X self) (X self)) ;;
  let '(X_train, X_test, y_train, y_test) := split in
  hp <- set_hard_parameters ;;
  let autoencoder :=
    [Input input_dimension;
     Dense (_n_neurons self) (_activation self) None None;
     Dense (Z.of_nat input_dimension) (VStr (activation_output hp)) None None] in
  emit (ETrain autoencoder (_batch_size self) (_n_epochs self)) ;;
  fitted <- lift (keras_fit lib
              (mk_fit_request autoencoder (optimizer_ hp) (loss_function_ hp) []
                 X_train X_train (X_test, X_test)
                 (_batch_size self) (_n_epochs self)
                 (monitor_early_stop hp) (patience_ hp) None)) ;;
  let '(autoencoder, history) := fitted in
  let encoder := keras_submodel lib autoencoder 2 in
  plot_history history "loss" "val_loss" "Model loss" "Loss"
               "Epoch" "upper right" "loss_history.eps" ;;
  emit (EPredict (X self)) ;;
  encoded_X <- lift (keras_predict lib encoder (X self)) ;;
  save <- getattr_save_txt ;;
  (if save
   then wb <- lift (keras_get_weights lib encoder 0) ;;
        emit (ESavetxt (path_ hp ++ "AEweightsHL1.txt")) ;;
        emit (ESavetxt (path_ hp ++ "AEbiasHL1.txt")) ;;
        emit (ESavetxt (path_ hp ++ "Encoded_matrix.txt"))
   else ret tt) ;;
  ret RNone.

End WithLibs.

(** The assignments a caller can make through the properties of the
    class. *)
Inductive assignment : Type :=
| Set_neurons (v : pyval)
| Set_activation (v : pyval)
| Set_batch_size (v : pyval)
| Set_n_epochs (v : pyval).

Definition assign (a : assignment) : M t unit :=
  match a with
  | Set_neurons v => neurons_setter v
  | Set_activation v => activation_setter v
  | Set_batch_size v => batch_size_setter v
  | Set_n_epochs v => n_epochs_setter v
  end.

(** A script that performs the assignments one after the other and
    goes on after a rejected one. *)
Fixpoint configure (script : list assignment) (s : t * World) : t * World :=
  match script with
  | [] => s
  | a :: rest => configure rest (snd (assign a s))
  end.

End Autoencoder.

(* ================================================================== *)
(** ** class MLP_regressor *)
(* ================================================================== *)

Module MLP_regressor.

Record t : Type := mk {
  X : ndarray;
  Y : ndarray;
  _n_neurons : Z;
  _layers : Z;
  _activation : pyval;
  _batch_size : Z;
  _n_epochs : Z;
  _dropout : number;
  save_txt : bool
}.

Definition with_n_neurons (v : Z) (o : t) : t :=
  mk (X o) (Y o) v (_layers o) (_activation o) (_batch_size o) (_n_epochs o)
     (_dropout o) (save_txt o).
Definition with_layers (v : Z) (o : t) : t :=
  mk (X o) (Y o) (_n_neurons o) v (_activation o) (_batch_size o) (_n_epochs o)
     (_dropout o) (save_txt o).
Definition with_activation (v : pyval) (o : t) : t :=
  mk (X o) (Y o) (_n_neurons o) (_layers o) v (_batch_size o) (_n_epochs o)
     (_dropout o) (save_txt o).
Definition with_batch_size (v : Z) (o : t) : t :=
  mk (X o) (Y o) (_n_neurons o) (_layers o) (_activation o) v (_n_epochs o)
     (_dropout o) (save_txt o).
Definition with_n_epochs (v : Z) (o : t) : t :=
  mk (X o) (Y o) (_n_neurons o) (_layers o) (_activation o) (_batch_size o) v
     (_dropout o) (save_txt o).
Definition with_dropout (v : number) (o : t) : t :=
  mk (X o) (Y o) (_n_neurons o) (_layers o) (_activation o) (_batch_size o)
     (_n_epochs o) v (save_txt o).

Definition init (X Y : ndarray) (save : bool) (w : World) : result t * World :=
  let self := mk X Y 2 1 (VStr "relu") 64 1000 (Int 0) save in
  if negb (Nat.eqb (shape0 X) (shape0 Y))
  then (inl (Exception "The number of observations (Input and Output) does not match: please check again your Input/Output. Exiting..."), w)
  else (inr self, w).

Definition neurons_setter (new_number : pyval) : M t unit :=
  new_number <- lift (accepts_int new_number) ;;
  set_self (with_n_neurons new_number) ;;
  self <- get_self ;;
  if _n_neurons self <=? 0
  then raise (Exception "The number of neurons in the hidden layer must be a positive integer. Exiting..")
  else ret tt.

Definition layers_setter (new_number_layers : pyval) : M t unit :=
  new_number_layers <- lift (accepts_int new_number_layers) ;;
  set_self (with_layers new_number_layers) ;;
  self <- get_self ;;
  if _layers self <=? 0
  then raise (Exception "The number hidden layers must be a positive integer. Exiting..")
  else ret tt.

Definition activation_setter (new_activation : pyval) : M t unit :=
  set_self (with_activation (new_activation_value new_activation)).

Definition batch_size_setter (new_batchsize : pyval) : M t unit :=
  new_batchsize <- lift (accepts_int new_batchsize) ;;
  set_self (with_batch_size new_batchsize) ;;
  self <- get_self ;;
  if _batch_size self <=? 0
  then raise (Exception "The batch size must be a positive integer. Exiting..")
  else ret tt.

Definition n_epochs_setter (new_epochs : pyval) : M t unit :=
  new_epochs <- lift (accepts_int new_epochs) ;;
  set_self (with_n_epochs new_epochs) ;;
  self <- get_self ;;
  if _n_epochs self <=? 0
  then raise (Exception "The number of epochs must be a positive integer. Exiting..")
  else ret tt.

Definition dropout_setter (new_value : pyval) : M t unit :=
  new_value <- lift (accepts_float new_value) ;;
  set_self (with_dropout (Float new_value)) ;;
  self <- get_self ;;
  if number_lt (_dropout self) 0
  then raise (Exception "The dropout percentage must be a positive integer. Exiting..")
  else if number_ge (_dropout self) 1
  then raise (Exception "The dropout percentage must be lower than 1. Exiting..")
  else ret tt.

Record hard_parameters : Type := mk_hard {
  activation_output : string;
  path_ : string;
  monitor_early_stop : string;
  optimizer_ : string;
  patience_ : Z;
  loss_function_ : string;
  metrics_ : string
}.

Definition set_hard_parameters : M t hard_parameters :=
  w <- get_world ;;
  ret (mk_hard "linear" (cwd w) "mean_squared_error" "adam" 5
               "mean_squared_error" "mse").

Definition set_environment : M t unit :=
  w <- get_world ;;
  let newDirName := "Train MLP regressor - " ++ clock w in
  os_mkdir newDirName ;;
  os_chdir newDirName.

Definition write_recap_text (neuro_number lay_number number_batches : Z)
           (activation_specification : pyval) : M t unit :=
  text_file <- file_open "recap_training.txt" ;;
  file_write text_file
    ("The number of neurons in the implemented architecture is equal to: "
       ++ format_int neuro_number ++ " " ++ newline) ;;
  file_write text_file
    ("The number of hidden layers in the implemented architecture is equal to: "
       ++ format_int lay_number ++ " " ++ newline) ;;
  file_write text_file
    ("The batch size is equal to: " ++ format_int number_batches ++ " " ++ newline) ;;
  line <- lift (str_concat3 "The activation function which was used was: "
                            activation_specification (". " ++ newline)) ;;
  file_write text_file line ;;
  file_close text_file.

Section WithLibs.
Variable lib : Libs.

(** One turn of the hidden-layer loop: the [Dropout] layer is added
    whatever the rate is. *)
Definition add_hidden (self : t) (Dropout_bound : bool)
           (_ : Z) (model : list layer) : M t (list layer) :=
  let model :=
    (model ++ [Dense (_n_neurons self) (_activation self) None None])%list in
  d <- lift (local_Dropout Dropout_bound (_dropout self)) ;;
  ret (model ++ [d])%list.

Definition build_network (self : t) (input_dimension output_dimension : nat)
           (activation_output : string) : M t (list layer) :=
  let counter := 1 in
  let model :=
    [Dense (_n_neurons self) (_activation self)
           (Some "normal") (Some input_dimension)] in
  first <-
    (if number_ne (_dropout self) 0
     then d <- lift (local_Dropout true (_dropout self)) ;;
          emit (EPrint "Dropping out some neurons...") ;;
          ret ((model ++ [d])%list, true)
     else ret (model, false)) ;;
  let '(model, Dropout_bound) := first in
  model <- while_counter (iterations counter (_layers self))
             counter (_layers self)
             (add_hidden self Dropout_bound) model ;;
  ret (model ++
         [Dense (Z.of_nat output_dimension) (VStr activation_output)
                None None])%list.

(** The weight dump reads the global name [classifier], which this
    module never defines. *)
Definition save_layer (_ : Z) (_ : unit) : M t unit :=
  raise (NameError "classifier").

Definition fit_network : M t returned :=
  self <- get_self ;;
  let input_dimension := shape1 (X self) in
  let output_dimension := shape1 (Y self) in
  set_environment ;;
  write_recap_text (_n_neurons self) (_layers self) (_batch_size self)
                   (_activation self) ;;
  split <- lift (train_test_split lib (X self) (Y self)) ;;
  let '(X_train, X_test, y_train, y_test) := split in
  hp <- set_hard_parameters ;;
  model <- build_network self input_dimension output_dimension
             (activation_output hp) ;;
  emit (ESummary model) ;;
  emit (ETrain model (_batch_size self) (_n_epochs self)) ;;
  fitted <- lift (keras_fit lib
              (mk_fit_request model (optimizer_ hp) (loss_function_ hp)
                 [metrics_ hp] X_train y_train (X_test, y_test)
                 (_batch_size self) (_n_epochs self)
                 (monitor_early_stop hp) (patience_ hp)
                 (Some (path_ hp ++ "/best_weights2c.h5")))) ;;
  let '(model, history) := fitted in
  plot_history history "loss" "val_loss" "Model loss" "Loss"
               "Epoch" "upper right" "loss_history.eps" ;;
  emit (ELoadWeights (path_ hp ++ "/best_weights2c.h5")) ;;
  model <- lift (keras_load_weights lib model (path_ hp ++ "/best_weights2c.h5")) ;;
  emit (EPredict (X self)) ;;
  test <- lift (keras_predict lib model (X self)) ;;
  let counter_saver := 0 in
  (if save_txt self
   then while_counter (iterations counter_saver (_layers self))
          counter_saver (_layers self) save_layer tt
   else ret tt) ;;
  ret (RArray test).

End WithLibs.

End MLP_regressor.

(* ================================================================== *)
(** ** The properties of the three classes *)
(* ================================================================== *)

Inductive hyperparameter : Type :=
| neurons
| layers
| batch_size
| n_epochs
| dropout.

Definition number_value (n : number) : pyval :=
  match n with
  | Int z => VInt z
  | Float f => VFloat f
  end.

(** The validated setter and the getter that each class defines for a
    hyperparameter.  [Autoencoder] has no [layers] and no [dropout]
    property. *)
Definition classifier_setter (h : hyperparameter)
  : option (pyval -> M MLP_classifier.t unit) :=
  match h with
  | neurons => Some MLP_classifier.neurons_setter
  | layers => Some MLP_classifier.layers_setter
  | batch_size => Some MLP_classifier.batch_size_setter
  | n_epochs => Some MLP_classifier.n_epochs_setter
  | dropout => Some MLP_classifier.dropout_setter
  end.

Definition classifier_getter (h : hyperparameter) (o : MLP_classifier.t) : pyval :=
  match h with
  | neurons => VInt (MLP_classifier._n_neurons o)
  | layers => VInt (MLP_classifier._layers o)
  | batch_size => VInt (MLP_classifier._batch_size o)
  | n_epochs => VInt (MLP_classifier._n_epochs o)
  | dropout => number_value (MLP_classifier._dropout o)
  end.

Definition autoencoder_setter (h : hyperparameter)
  : option (pyval -> M Autoencoder.t unit) :=
  match h with
  | neurons => Some Autoencoder.neurons_setter
  | batch_size => Some Autoencoder.batch_size_setter
  | n_epochs => Some Autoencoder.n_epochs_setter
  | layers | dropout => None
  end.

Definition autoencoder_getter (h : hyperparameter) (o : Autoencoder.t) : pyval :=
  match h with
  | neurons => VInt (Autoencoder._n_neurons o)
  | batch_size => VInt (Autoencoder._batch_size o)
  | n_epochs => VInt (Autoencoder._n_epochs o)
  | layers | dropout => VNone
  end.

Definition regressor_setter (h : hyperparameter)
  : option (pyval -> M MLP_regressor.t unit) :=
  match h with
  | neurons => Some MLP_regressor.neurons_setter
  | layers => Some MLP_regressor.layers_setter
  | batch_size => Some MLP_regressor.batch_size_setter
  | n_epochs => Some MLP_regressor.n_epochs_setter
  | dropout => Some MLP_regressor.dropout_setter
  end.

Definition regressor_getter (h : hyperparameter) (o : MLP_regressor.t) : pyval :=
  match h with
  | neurons => VInt (MLP_regressor._n_neurons o)
  | layers => VInt (MLP_regressor._layers o)
  | batch_size => VInt (MLP_regressor._batch_size o)
  | n_epochs => VInt (MLP_regressor._n_epochs o)
  | dropout => number_value (MLP_regressor._dropout o)
  end.

(** The floats that the two comparisons of the dropout setter catch: a
    number (finite or infinite) below 0 or at least 1.  NaN is in
    neither case. *)
Definition float_refused (f : pyfloat) : Prop :=
  match f with
  | FNum q => (q < 0 \/ 1 <= q)%Q
  | FInf _ => True
  | FNaN => False
  end.

(** The values that a setter refuses: a count that is not positive, a
    dropout that compares below 0 or at least 1. *)
Definition invalid (h : hyperparameter) (v : pyval) : Prop :=
  match h, v with
  | dropout, VFloat f => float_refused f
  | dropout, VInt z => z < 0 \/ 1 <= z
  | dropout, _ => False
  | _, VInt z => z <= 0
  | _, _ => False
  end.

(* ================================================================== *)
(** ** Kernel approximation *)
(* ================================================================== *)

(** The [settings] dictionary of
    [examples/model_order_reduction/kernelApproximation.py]. *)
Record settings : Type := mk_settings {
  number_to_pick : Z;
  sigma : Q;
  rank : Z;
  number_of_matrices : Z
}.

Definition example_settings : settings := mk_settings 100 1 30 10.

(** The example keeps the first 2000 rows of the data set:
    [X = X[:2000,:]]. *)
Definition example_rows {A} (X : list A) : list A := firstn 2000 X.

(** The entries of the matrices and the numerical routines are those of
    the linear-algebra library: the scalars with their sum, product and
    division by a count, the radial-basis-function kernel between two
    rows for a bandwidth, the pseudo-inverse, the orthogonal
    factorization, the core of the QR reconstruction, and the random
    generator ([draw g n m] picks [m] row indices out of [n] and steps
    the generator). *)
Record Numerics : Type := mk_Numerics {
  scalar : Type;
  zero : scalar;
  add : scalar -> scalar -> scalar;
  mul : scalar -> scalar -> scalar;
  div_count : scalar -> nat -> scalar;
  rbf : Q -> list scalar -> list scalar -> scalar;
  pinv : list (list scalar) -> list (list scalar);
  qr : list (list scalar) -> list (list scalar) * list (list scalar);
  core : list (list scalar) -> list (list scalar);
  generator : Type;
  draw : generator -> nat -> nat -> list nat * generator
}.

Module Kernel_approximation.

Section Numerics.

Variable num : Numerics.

Definition matrix : Type := list (list (scalar num)).

Record t : Type := mk {
  X : matrix;
  options : settings
}.

(** The generator and the number of landmark sets drawn so far. *)
Record env : Type := mk_env {
  gen : generator num;
  draws : nat
}.

Definition is_shape (A : matrix) (n m : nat) : Prop :=
  List.length A = n /\ Forall (fun r => List.length r = m) A.

Fixpoint map2 {A B C} (f : A -> B -> C) (l : list A) (l' : list B) : list C :=
  match l, l' with
  | a :: rest, b :: rest' => f a b :: map2 f rest rest'
  | _, _ => []
  end.

Definition dot (a b : list (scalar num)) : scalar num :=
  fold_right (add num) (zero num) (map2 (mul num) a b).

(** [A . B^T]: entry (i, j) is the product of row i of [A] and row j of
    [B]. *)
Definition mul_transposed (A B : matrix) : matrix :=
  map (fun a => map (dot a) B) A.

Definition transpose (A : matrix) : matrix :=
  map (fun j => map (fun r => nth j r (zero num)) A)
      (seq 0 (List.length (hd [] A))).

Definition matmul (A B : matrix) : matrix := mul_transposed A (transpose B).

Definition madd (A B : matrix) : matrix := map2 (map2 (add num)) A B.

Definition zeros (n m : nat) : matrix := repeat (repeat (zero num) m) n.

Definition select_rows (A : matrix) (idx : list nat) : matrix :=
  map (fun i => nth i A []) idx.

(** The kernel block between the rows of [A] and the rows of [B]. *)
Definition kernel_block (s : Q) (A B : matrix) : matrix :=
  map (fun a => map (rbf num s a) B) A.

(** Modelled from the spec: the configuration check of section 4.1,
    "[number_to_pick] > n, [rank] > [number_to_pick], or non-positive
    [sigma]/[rank]/[number_to_pick] must fail fast with a descriptive
    error before any sampling occurs".  The class [Kernel_approximation]
    itself is imported by the example and is not part of the sources. *)
Definition validate (self : t) : result unit :=
  let o := options self in
  let n := Z.of_nat (List.length (X self)) in
  if n <? number_to_pick o
  then inl (ConfigurationError "number_to_pick exceeds the number of rows")
  else if number_to_pick o <? rank o
  then inl (ConfigurationError "rank exceeds number_to_pick")
  else if Qle_bool (sigma o) 0
  then inl (ConfigurationError "sigma must be positive")
  else if rank o <=? 0
  then inl (ConfigurationError "rank must be positive")
  else if number_to_pick o <=? 0
  then inl (ConfigurationError "number_to_pick must be positive")
  else inr tt.

(** Modelled from the spec: one landmark draw, "a subset of row indices
    of size [number_to_pick], selected uniformly at random". *)
Definition sample (self : t) (e : env) : list nat * env :=
  let '(idx, g) :=
    draw num (gen e) (List.length (X self))
         (Z.to_nat (number_to_pick (options self))) in
  (idx, mk_env g (S (draws e))).

(** Modelled from the spec: "compute the m x m kernel sub-block between
    landmarks, its (pseudo-)inverse, and the n x m cross-kernel block
    between all rows and landmarks; reconstruct the n x n approximation
    as cross-block . pinv(sub-block) . cross-block-transpose". *)
Definition approximation (self : t) (idx : list nat) : matrix :=
  let landmarks := select_rows (X self) idx in
  let W := kernel_block (sigma (options self)) landmarks landmarks in
  let C := kernel_block (sigma (options self)) (X self) landmarks in
  mul_transposed (matmul C (pinv num W)) C.

(** Modelled from the spec: the standard Nystrom operation, "draw one
    landmark set of size m" and reconstruct. *)
Definition Nystrom_standard (self : t) (e : env) : result matrix * (t * env) :=
  match validate self with
  | inl err => (inl err, (self, e))
  | inr _ =>
      let '(idx, e') := sample self e in
      (inr (approximation self idx), (self, e'))
  end.

(** [k] landmark sets drawn one after the other. *)
Fixpoint sample_many (self : t) (k : nat) (e : env) : list (list nat) * env :=
  match k with
  | O => ([], e)
  | S k' =>
      let '(idx, e') := sample self e in
      let '(rest, e'') := sample_many self k' e' in
      (idx :: rest, e'')
  end.

(** Modelled from the spec: the combination of the per-draw
    approximations is a "simple mean". *)
Definition mean (n : nat) (Ks : list matrix) : matrix :=
  map (map (fun x => div_count num x (List.length Ks)))
      (fold_right madd (zeros n n) Ks).

Definition ensemble_of (self : t) (landmark_sets : list (list nat)) : matrix :=
  mean (List.length (X self)) (map (approximation self) landmark_sets).

(** Modelled from the spec: the ensemble Nystrom operation, "repeat the
    standard procedure [number_of_matrices] times with independent
    landmark draws and combine (e.g., average) the resulting
    approximations". *)
Definition Nystrom_ensemble (self : t) (e : env) : result matrix * (t * env) :=
  match validate self with
  | inl err => (inl err, (self, e))
  | inr _ =>
      let '(sets, e') :=
        sample_many self (Z.to_nat (number_of_matrices (options self))) e in
      (inr (ensemble_of self sets), (self, e'))
  end.

(** Modelled from the spec: the QR-based operation, "draw one landmark
    set of size m; compute an orthogonal factorization of the n x m
    cross-kernel block truncated to [rank] columns; reconstruct the
    approximation from the truncated factors".  The spec leaves the
    reconstruction open: it is taken in the symmetric form
    Q_r . B . Q_r^T, with B any function [core] of the truncated
    triangular factor. *)
Definition QRdecomposition (self : t) (e : env) : result matrix * (t * env) :=
  match validate self with
  | inl err => (inl err, (self, e))
  | inr _ =>
      let '(idx, e') := sample self e in
      let landmarks := select_rows (X self) idx in
      let C := kernel_block (sigma (options self)) (X self) landmarks in
      let '(Qf, Rf) := qr num C in
      let r := Z.to_nat (rank (options self)) in
      let Q_r := map (firstn r) Qf in
      let R_r := firstn r Rf in
      (inr (mul_transposed (matmul Q_r (core num R_r)) Q_r), (self, e'))
  end.

(** The three operations of the component. *)
Inductive operation : Type :=
| Standard
| Ensemble
| QR.

Definition run (op : operation) : t -> env -> result matrix * (t * env) :=
  match op with
  | Standard => Nystrom_standard
  | Ensemble => Nystrom_ensemble
  | QR => QRdecomposition
  end.

(** A configuration the spec rejects. *)
Definition misconfigured (self : t) : Prop :=
  let o := options self in
  Z.of_nat (List.length (X self)) < number_to_pick o
  \/ number_to_pick o < rank o
  \/ (sigma o <= 0)%Q
  \/ rank o <= 0
  \/ number_to_pick o <= 0.

Definition well_configured (self : t) : Prop :=
  let o := options self in
  0 < number_to_pick o <= Z.of_nat (List.length (X self))
  /\ 0 < rank o <= number_to_pick o
  /\ (0 < sigma o)%Q.

End Numerics.

End Kernel_approximation.

(* ================================================================== *)
(** ** The recipes as one family *)
(* ================================================================== *)

Inductive recipe : Type :=
| Classifier (self : MLP_classifier.t)
| Encoder (self : Autoencoder.t)
| Regressor (self : MLP_regressor.t).

Definition run_setter {O} (wrap : O -> recipe)
           (setter : option (pyval -> M O unit)) (v : pyval) (o : O) (w : World)
  : option (result unit * (recipe * World)) :=
  match setter with
  | None => None
  | Some set =>
      let r := set v (o, w) in
      Some (outcome r, (wrap (self_after r), world_after r))
  end.

(** The assignment [recipe.h = v]: what it raises or returns, the object
    and the world afterwards; [None] when the class has no such
    property. *)
Definition assign (r : recipe) (h : hyperparameter) (v : pyval) (w : World)
  : option (result unit * (recipe * World)) :=
  match r with
  | Classifier o => run_setter Classifier (classifier_setter h) v o w
  | Encoder o => run_setter Encoder (autoencoder_setter h) v o w
  | Regressor o => run_setter Regressor (regressor_setter h) v o w
  end.

(** The value that the property [h] reads back. *)
Definition stored (r : recipe) (h : hyperparameter) : pyval :=
  match r with
  | Classifier o => classifier_getter h o
  | Encoder o => autoencoder_getter h o
  | Regressor o => regressor_getter h o
  end.

(** The exceptions of a refused assignment: the [Exception] of a setter
    body, the [AssertionError] of the type check. *)
Definition rejection (e : exn) : Prop :=
  match e with
  | Exception _ | AssertionError _ => True
  | _ => False
  end.

Definition rejects {O} (set : pyval -> M O unit) (v : pyval) : Prop :=
  forall o w, exists e,
    rejection e /\ outcome (set v (o, w)) = inl e /\ world_after (set v (o, w)) = w.

Definition keeps_rejected {O} (set : pyval -> M O unit) (get : O -> pyval)
           (v : pyval) : Prop :=
  forall o w msg,
    outcome (set v (o, w)) = inl (Exception msg) ->
    get (self_after (set v (o, w))) = v.

(** The fit method of each recipe, its result and the world it leaves. *)
Definition fit_outcome (lib : Libs) (r : recipe) (w : World) : result returned :=
  match r with
  | Classifier o => outcome (MLP_classifier.fit_network lib (o, w))
  | Encoder o => outcome (Autoencoder.fit lib (o, w))
  | Regressor o => outcome (MLP_regressor.fit_network lib (o, w))
  end.

Definition fit_world (lib : Libs) (r : recipe) (w : World) : World :=
  match r with
  | Classifier o => world_after (MLP_classifier.fit_network lib (o, w))
  | Encoder o => world_after (Autoencoder.fit lib (o, w))
  | Regressor o => world_after (MLP_regressor.fit_network lib (o, w))
  end.

(** The human-readable prefix of the directory each recipe creates. *)
Definition directory_prefix (r : recipe) : string :=
  match r with
  | Classifier _ => "Train MLP class - "
  | Encoder _ => "Train Autoencoder - "
  | Regressor _ => "Train MLP regressor - "
  end.

Definition input_matrix (r : recipe) : ndarray :=
  match r with
  | Classifier o => MLP_classifier.X o
  | Encoder o => Autoencoder.X o
  | Regressor o => MLP_regressor.X o
  end.

(* ================================================================== *)
(** ** Vocabulary of the statements *)
(* ================================================================== *)

(** The events that [w'] has beyond [w], oldest first. *)
Definition fresh (w w' : World) : list event :=
  skipn (List.length (trace w)) (trace w').

Definition is_print (e : event) : Prop :=
  match e with EPrint _ => True | _ => False end.

Definition is_write_to (f : string) (e : event) : Prop :=
  match e with EWrite p _ => p = f | _ => False end.

Definition is_quiet (e : event) : Prop :=
  match e with EPrint _ | ESummary _ => True | _ => False end.

Definition is_training (e : event) : Prop :=
  match e with ETrain _ _ _ => True | _ => False end.

Definition is_predict (e : event) : Prop :=
  match e with EPredict _ => True | _ => False end.

(** Between [w] and [w'] a directory named [prefix] plus the time stamp
    was created (it did not exist before), the process moved into it,
    [recap_training.txt] was opened there, written and closed, and only
    then training was started; before the directory nothing but console
    output happened, and between the recap and the training nothing but
    console output and the model summary. *)
Definition setup_before_training (prefix : string) (w w' : World) : Prop :=
  let d := path_join (cwd w) (prefix ++ clock w) in
  let f := path_join d "recap_training.txt" in
  ~ In d (dirs w) /\ In d (dirs w') /\ cwd w' = d /\
  exists pre writes mid net b e post,
    fresh w w' =
      (pre ++ [EMkdir d; EChdir d; EOpen f] ++ writes ++ [EClose f]
           ++ mid ++ ETrain net b e :: post)%list
    /\ Forall is_print pre
    /\ writes <> [] /\ Forall (is_write_to f) writes
    /\ Forall is_quiet mid.

Definition trained_implies_setup (prefix : string) (w w' : World) : Prop :=
  Exists is_training (fresh w w') -> setup_before_training prefix w w'.

(** [Q] holds of what [m] returns or raises and of the state it leaves,
    when run from [s]. *)
Definition wp {O A} (m : M O A) (Q : result A -> O * World -> Prop)
           (s : O * World) : Prop :=
  Q (fst (m s)) (snd (m s)).

(** [m] leaves the object alone, appends events that satisfy [P] to the
    trace and touches nothing else of the world. *)
Definition emits {O A} (P : event -> Prop) (m : M O A) : Prop :=
  forall s, exists evs,
    Forall P evs
    /\ fst (snd (m s)) = fst s
    /\ trace (snd (snd (m s))) = (trace (snd s) ++ evs)%list
    /\ cwd (snd (snd (m s))) = cwd (snd s)
    /\ dirs (snd (snd (m s))) = dirs (snd s).

(** [v] is the array that the network fitted by Keras (with its best
    weights loaded back, where the recipe does so) predicts on [X]. *)
Definition predictions_of (lib : Libs) (X : ndarray) (v : returned) : Prop :=
  exists req m h m' a,
    keras_fit lib req = inr (m, h)
    /\ (m' = m \/ exists p, keras_load_weights lib m p = inr m')
    /\ keras_predict lib m' X = inr a
    /\ v = RArray a.

(** A hidden layer with the dropout layer that follows it when the rate
    is not zero. *)
Definition block (dense : layer) (d : number) : list layer :=
  dense :: (if number_ne d 0 then [Dropout d] else []).

(** The network of [L] hidden layers of [N] neurons with activation [a],
    each followed by dropout when [d] is not zero, and the output
    layer. *)
Definition expected_network (N : Z) (a : pyval) (d : number) (L : Z)
           (first_initializer : string) (input_dimension : nat) (output : layer)
  : list layer :=
  (block (Dense N a (Some first_initializer) (Some input_dimension)) d
     ++ List.concat (repeat (block (Dense N a None None) d) (Z.to_nat (L - 1)))
     ++ [output])%list.

Fixpoint hidden_count (net : list layer) : nat :=
  match net with
  | [] => O
  | Dense _ _ _ _ :: rest => S (hidden_count rest)
  | _ :: rest => hidden_count rest
  end.

(* ================================================================== *)
(** ** Sample inputs *)
(* ================================================================== *)

Definition sample_X : ndarray :=
  mk_ndarray 3 2 [[1; 2]; [3; 4]; [5; 6]]%Q.

Definition sample_Y : ndarray :=
  mk_ndarray 3 2 [[1; 0]; [0; 1]; [1; 0]]%Q.

Definition short_Y : ndarray :=
  mk_ndarray 2 2 [[1; 0]; [0; 1]]%Q.

Definition sample_world : World :=
  mk_World "/home/user" [] "2020_01_01-1200" [].

(** A library whose calls all succeed, except [np.zeros] called with a
    second positional argument that is no data type. *)
Definition sample_lib : Libs :=
  mk_Libs unit
    (fun _ _ => inl (TypeError "Cannot interpret the argument as a data type"))
    (fun X Y => inr (X, X, Y, Y))
    (fun _ => inr (tt, [("loss", []); ("val_loss", []);
                        ("acc", []); ("val_acc", [])]))
    (fun m _ => m)
    (fun m _ => inr m)
    (fun _ _ => inr (sample_X, sample_X))
    (fun _ X => inr (mk_ndarray (shape0 X) 1 [])).

Definition sample_classifier : MLP_classifier.t :=
  MLP_classifier.mk sample_X sample_Y (VStr "relu") 64 1000 2 1 (Int 0) false.

(** An [Autoencoder] as its constructor leaves it. *)
Definition sample_autoencoder : Autoencoder.t :=
  Autoencoder.mk sample_X 1 (VStr "relu") 64 1000 None.

(** Integer scalars, a constant kernel, identity routines and a
    generator that always picks the first rows. *)
Definition sample_numerics : Numerics :=
  mk_Numerics Z 0 Z.add Z.mul (fun x n => x / Z.of_nat n)
    (fun _ _ _ => 1) (fun A => A) (fun A => (A, A)) (fun A => A)
    nat (fun g _ m => (seq 0 m, S g)).

Definition sample_data : list (list Z) := [[1; 2]; [3; 4]; [5; 6]].

Definition sample_kernel (o : settings) : Kernel_approximation.t sample_numerics :=
  Kernel_approximation.mk sample_numerics sample_data o.

Definition sample_env : Kernel_approximation.env sample_numerics :=
  Kernel_approximation.mk_env sample_numerics O O.

(* ================================================================== *)
(** ** Vocabulary of the setter properties *)
(* ================================================================== *)

(** The largest count a property accepts, where the class sets one:
    the [neurons] of an [Autoencoder] stay below [X.shape[1]]. *)
Definition upper_bound (r : recipe) (h : hyperparameter) : option Z :=
  match r, h with
  | Encoder o, neurons => Some (Z.of_nat (shape1 (Autoencoder.X o)))
  | _, _ => None
  end.

Definition below (z : Z) (bound : option Z) : Prop :=
  match bound with
  | Some b => z < b
  | None => True
  end.

(** A float in [[0,1)], or NaN, which no comparison rejects. *)
Definition float_in_unit (f : pyfloat) : Prop :=
  match f with
  | FNum q => (0 <= q /\ q < 1)%Q
  | FInf _ => False
  | FNaN => True
  end.

(** The [activation] attribute of a recipe. *)
Definition activation_of (r : recipe) : pyval :=
  match r with
  | Classifier o => MLP_classifier._activation o
  | Encoder o => Autoencoder._activation o
  | Regressor o => MLP_regressor._activation o
  end.

(** The attributes that no property setter writes: the data and the
    [save_txt] flag (absent on an [Autoencoder] until a caller assigns
    it). *)
Definition fixed_attributes (r : recipe) : ndarray * option ndarray * option bool :=
  match r with
  | Classifier o =>
      (MLP_classifier.X o, Some (MLP_classifier.Y o), Some (MLP_classifier.save_txt o))
  | Encoder o => (Autoencoder.X o, None, Autoencoder.save_txt o)
  | Regressor o =>
      (MLP_regressor.X o, Some (MLP_regressor.Y o), Some (MLP_regressor.save_txt o))
  end.

(** The assignment [recipe.activation = v]. *)
Definition assign_activation (r : recipe) (v : pyval) (w : World)
  : result unit * (recipe * World) :=
  match r with
  | Classifier o =>
      let res := MLP_classifier.activation_setter v (o, w) in
      (outcome res, (Classifier (self_after res), world_after res))
  | Encoder o =>
      let res := Autoencoder.activation_setter v (o, w) in
      (outcome res, (Encoder (self_after res), world_after res))
  | Regressor o =>
      let res := MLP_regressor.activation_setter v (o, w) in
      (outcome res, (Regressor (self_after res), world_after res))
  end.

(* ================================================================== *)
(** ** Vocabulary of the fit properties *)
(* ================================================================== *)

Definition is_savetxt (e : event) : Prop :=
  match e with ESavetxt _ => True | _ => False end.

Definition is_load_weights (e : event) : Prop :=
  match e with ELoadWeights _ => True | _ => False end.

Definition is_open (e : event) : Prop :=
  match e with EOpen _ => True | _ => False end.

Definition is_close (e : event) : Prop :=
  match e with EClose _ => True | _ => False end.

(** The directory that a fit started in the environment [w] creates. *)
Definition run_directory (r : recipe) (w : World) : string :=
  path_join (cwd w) (directory_prefix r ++ clock w).

(** Whether a fit of the recipe is set to dump weights as text:
    [MLP_regressor] reads the flag but its dump cannot run, an
    [Autoencoder] has the flag only when a caller assigned it. *)
Definition writes_weights (r : recipe) : bool :=
  match r with
  | Classifier o => MLP_classifier.save_txt o
  | Encoder o =>
      match Autoencoder.save_txt o with
      | Some b => b
      | None => false
      end
  | Regressor _ => false
  end.

(** The network of an [MLP_regressor]: the loop adds a dropout layer
    after every further hidden layer, whatever the rate. *)
Definition regressor_network (N : Z) (a : pyval) (d : number) (L : Z)
           (input_dimension : nat) (output : layer) : list layer :=
  (block (Dense N a (Some "normal") (Some input_dimension)) d
     ++ List.concat (repeat [Dense N a None None; Dropout d] (Z.to_nat (L - 1)))
     ++ [output])%list.

(** The network that a recipe hands to Keras, for [out] output units. *)
Definition network_of (r : recipe) (out : nat) : list layer :=
  match r with
  | Classifier o =>
      expected_network (MLP_classifier._n_neurons o)
        (MLP_classifier._activation o) (MLP_classifier._dropout o)
        (MLP_classifier._layers o) "random_normal"
        (shape1 (MLP_classifier.X o))
        (Dense (Z.of_nat out) (VStr "softmax") (Some "random_normal") None)
  | Encoder o =>
      [Input (shape1 (Autoencoder.X o));
       Dense (Autoencoder._n_neurons o) (Autoencoder._activation o) None None;
       Dense (Z.of_nat (shape1 (Autoencoder.X o))) (VStr "linear") None None]
  | Regressor o =>
      regressor_network (MLP_regressor._n_neurons o)
        (MLP_regressor._activation o) (MLP_regressor._dropout o)
        (MLP_regressor._layers o) (shape1 (MLP_regressor.X o))
        (Dense (Z.of_nat out) (VStr "linear") None None)
  end.

(** The hidden-layer loop of [MLP_regressor] can run only when the name
    [Dropout] was bound or there is nothing to loop over. *)
Definition can_build (r : recipe) : Prop :=
  match r with
  | Regressor o =>
      number_ne (MLP_regressor._dropout o) 0 = true \/ MLP_regressor._layers o < 2
  | _ => True
  end.

(** The figures a fit saves, the checkpoint it loads back and the text
    files it dumps, for the run directory [d]. *)
Definition figures (r : recipe) : list string :=
  match r with
  | Classifier _ => ["accuracy_history.eps"; "loss_history.eps"]
  | _ => ["loss_history.eps"]
  end.

Definition loaded_checkpoints (r : recipe) (d : string) : list string :=
  match r with
  | Regressor _ => [d ++ "/best_weights2c.h5"]
  | _ => []
  end.

Definition text_dump (r : recipe) (d p : string) : Prop :=
  match r with
  | Classifier o =>
      exists i, 0 <= i < MLP_classifier._layers o
        /\ (p = path_join d ("Weights_HL" ++ format_int i ++ ".txt")
            \/ p = path_join d ("Biases_HL" ++ format_int i ++ ".txt"))
  | Encoder _ =>
      In p [d ++ "AEweightsHL1.txt"; d ++ "AEbiasHL1.txt"; d ++ "Encoded_matrix.txt"]
  | Regressor _ => False
  end.

(** What an effect of a fit started in [w] can be. *)
Definition fit_event (r : recipe) (w : World) (e : event) : Prop :=
  let d := run_directory r w in
  match e with
  | EPrint _ | ESummary _ | EPlot _ | EFigure _ _ | EShow => True
  | EMkdir p | EChdir p => p = d
  | EOpen p | EWrite p _ | EClose p => p = path_join d "recap_training.txt"
  | ESavefig p => In p (map (path_join d) (figures r))
  | ETrain net b ep =>
      stored r batch_size = VInt b /\ stored r n_epochs = VInt ep
      /\ (exists out, net = network_of r out) /\ can_build r
  | ELoadWeights p => In p (loaded_checkpoints r d)
  | EPredict X => X = input_matrix r
  | ESavetxt p => writes_weights r = true /\ text_dump r d p
  end.

(** The metrics that a fit reads from the training history. *)
Definition metrics_plotted (r : recipe) : list string :=
  match r with
  | Classifier _ => ["acc"; "val_acc"; "loss"; "val_loss"]
  | _ => ["loss"; "val_loss"]
  end.

(** What the object must be like for its fit to reach the end. *)
Definition can_return (r : recipe) : Prop :=
  match r with
  | Classifier _ => True
  | Encoder o => Autoencoder.save_txt o <> None
  | Regressor o =>
      can_build r
      /\ (MLP_regressor.save_txt o = false \/ MLP_regressor._layers o <= 0)
  end.

(** The trace [T] extends [t] by events that satisfy [P]. *)
Definition ext (P : event -> Prop) (t T : list event) : Prop :=
  exists evs, T = (t ++ evs)%list /\ Forall P evs.

Definition since (P : event -> Prop) (w W : World) : Prop :=
  ext P (trace w) (trace W).

(** The checkpoint file that the training request names, for the run
    directory [d]: an [Autoencoder] asks for none. *)
Definition checkpoint_of (r : recipe) (d : string) : option string :=
  match r with
  | Classifier _ => Some (d ++ "/best_weights.h5")
  | Encoder _ => None
  | Regressor _ => Some (d ++ "/best_weights2c.h5")
  end.

(** [req] is the request that a fit of [r] started in [w] hands to
    Keras: the stored batch size and epochs, the network built from the
    stored hyperparameters, and the checkpoint in the run directory. *)
Definition request_of (r : recipe) (w : World) (req : fit_request) : Prop :=
  stored r batch_size = VInt (fr_batch_size req)
  /\ stored r n_epochs = VInt (fr_epochs req)
  /\ (exists out, fr_net req = network_of r out)
  /\ fr_checkpoint req = checkpoint_of r (run_directory r w).

(** What every run of a fit satisfies: its effects are those of
    [fit_event]; it either fails before it has a directory, leaving the
    working directory and the directories as they were, or creates the
    run directory and stays in it; and when it returns, the object
    allowed it and Keras answered the request of the fit with every
    metric that is plotted. *)
Definition fit_summary (lib : Libs) (r : recipe) (w : World)
           (res : result returned) (W : World) : Prop :=
  since (fit_event r w) w W
  /\ ((cwd W = cwd w /\ dirs W = dirs w /\ exists e, res = inl e)
      \/ (~ In (run_directory r w) (dirs w)
          /\ cwd W = run_directory r w
          /\ dirs W = run_directory r w :: dirs w))
  /\ (forall v, res = inr v ->
        can_return r
        /\ exists req m h,
            keras_fit lib req = inr (m, h)
            /\ request_of r w req
            /\ Forall (fun k => exists s, dict_get h k = inr s) (metrics_plotted r)).

(** [emits] for a block that is run in the working directory [c]. *)
Definition emits_in {O A} (c : string) (P : event -> Prop) (m : M O A) : Prop :=
  forall s, cwd (snd s) = c ->
    exists evs,
      Forall P evs
      /\ fst (snd (m s)) = fst s
      /\ trace (snd (snd (m s))) = (trace (snd s) ++ evs)%list
      /\ cwd (snd (snd (m s))) = cwd (snd s)
      /\ dirs (snd (snd (m s))) = dirs (snd s).

(** What a fit of an object whose activation is no string comes to. *)
Definition stops_at_recap (w : World) (res : result returned) (W : World) : Prop :=
  (exists e, res = inl e)
  /\ since (fun e => ~ is_training e /\ ~ is_close e) w W
  /\ ((exists msg, res = inl (TypeError msg))
      \/ since (fun e => ~ is_open e) w W).

Fixpoint dropout_count (net : list layer) : nat :=
  match net with
  | [] => O
  | Dropout _ :: rest => S (dropout_count rest)
  | _ :: rest => dropout_count rest
  end.

(** The value of the hyperparameter [h] that a training request
    carries. *)
Definition training_value (h : hyperparameter) (e : event) : option Z :=
  match h, e with
  | batch_size, ETrain _ b _ => Some b
  | n_epochs, ETrain _ _ ep => Some ep
  | _, _ => None
  end.


(** The paths in the effects that create or enter a directory, touch the
    recap file or save a figure. *)
Definition run_file (r : recipe) (w : World) (e : event) : Prop :=
  let d := run_directory r w in
  match e with
  | EMkdir p | EChdir p => p = d
  | EOpen p | EWrite p _ | EClose p => p = path_join d "recap_training.txt"
  | ESavefig p => In p (map (path_join d) (figures r))
  | _ => True
  end.

Definition sample_regressor : MLP_regressor.t :=
  MLP_regressor.mk sample_X sample_Y 2 1 (VStr "relu") 64 1000 (Int 0) false.

(** Labels as a single column of class indices. *)
Definition column_Y : ndarray :=
  mk_ndarray 3 1 [[0]; [1]; [0]]%Q.

(** A classifier after [classifier.activation = 'leaky_relu']. *)
Definition leaky_classifier : MLP_classifier.t :=
  MLP_classifier.with_activation (new_activation_value (VStr "leaky_relu"))
    sample_classifier.

(** The classifier that the constructor returns for these labels. *)
Definition column_classifier : MLP_classifier.t :=
  MLP_classifier.mk sample_X column_Y (VStr "relu") 64 1000 2 1 (Int 0) false.


(* ================================================================== *)
(** ** Further vocabulary: intervals, layers, the setup of a fit *)
(* ================================================================== *)

(** Modelled from the spec's words, "dropout outside [0,1)": the float
    [f] is outside the interval when [0 <= f < 1] does not hold, as it
    does not for NaN. *)
Definition outside_unit_interval (f : pyfloat) : Prop :=
  ~ (float_ge f 0 = true /\ float_lt f 1 = true).

(** The activation names that Keras has known since its release 2.0. *)
Definition keras_activations : list string :=
  [ "relu"; "sigmoid"; "tanh"; "softmax"; "linear"; "elu"; "selu";
    "softplus"; "softsign"; "hard_sigmoid" ].

(** The rates that the [Dropout] constructor of Keras takes: a number
    from 0 up to, but not including, 1. *)
Definition keras_rate (rate : number) : Prop :=
  match rate with
  | Int z => z = 0
  | Float (FNum q) => (0 <= q /\ q < 1)%Q
  | Float _ => False
  end.

(** The layers whose construction Keras is sure to accept: a positive
    number of units and inputs, the name of a built-in activation, a
    rate in [[0,1)].  With other arguments the constructors of Keras can
    raise, which the model of the recipes, where they always return,
    does not show. *)
Definition keras_accepts (l : layer) : Prop :=
  match l with
  | Input shape => (0 < shape)%nat
  | Dense units activation _ input_dim =>
      0 < units
      /\ (exists name, activation = VStr name /\ In name keras_activations)
      /\ match input_dim with
         | Some n => (0 < n)%nat
         | None => True
         end
  | Dropout rate => keras_rate rate
  end.





(* ================================================================== *)
(** ** Double-precision arithmetic for the kernel approximation *)
(* ================================================================== *)

(** IEEE binary64 numbers, as numpy computes with them. *)
Definition double : Type := PrimFloat.float.

Definition double_of_Z (z : Z) : double :=
  match z with
  | Z0 => PrimFloat.zero
  | Zpos _ => PrimFloat.of_uint63 (Uint63.of_Z z)
  | Zneg p => PrimFloat.opp (PrimFloat.of_uint63 (Uint63.of_Z (Zpos p)))
  end.

Definition double_of_Q (q : Q) : double :=
  PrimFloat.div (double_of_Z (Qnum q)) (double_of_Z (Zpos (Qden q))).

(** The rational that a finite double is; 0 for the others. *)
Definition Q_of_double (x : double) : Q :=
  match FloatOps.Prim2SF x with
  | SpecFloat.S754_finite s m e =>
      let v := if 0 <=? e then inject_Z (Zpos m * 2 ^ e)
               else Zpos m # Z.to_pos (2 ^ (- e)) in
      if s then Qopp v else v
  | _ => 0%Q
  end.

(** The double nearest to [a / b], ties to the even significand, for a
    quotient in the range of the normal numbers: the exponent [e] is
    chosen so that the quotient by [2 ^ e] has 53 bits before the
    point. *)
Definition nearest_double (a b : positive) : double :=
  let scaled (e : Z) : Z * Z :=
    if 0 <=? e then (Zpos a, Zpos b * 2 ^ e) else (Zpos a * 2 ^ (- e), Zpos b) in
  let e0 := Z.log2 (Zpos a) - Z.log2 (Zpos b) - 53 in
  let e := if 2 ^ 53 <=? fst (scaled e0) / snd (scaled e0) then e0 + 1 else e0 in
  let '(n, d) := scaled e in
  let m := n / d in
  let r := n mod d in
  let m' := if (d <? 2 * r) || ((d =? 2 * r) && Z.odd m) then m + 1 else m in
  FloatOps.SF2Prim (SpecFloat.S754_finite false (Z.to_pos m') e).

(** The partial sum [1 + x + ... + x^k / k!] of the exponential series,
    from the inside: [1 + x/1 (1 + x/2 (... (1 + x/k)))]. *)
Fixpoint exp_series (k : nat) (x acc : Q) : Q :=
  match k with
  | O => acc
  | S k' => exp_series k' x (1 + x * acc / inject_Z (Z.of_nat k))
  end.

(** The exponential of a double, rounded to the nearest double: the
    series is summed in exact rationals, and its rest after 40 terms is
    far below the last bit for the arguments between -2 and 0 that the
    kernel is applied to below. *)
Definition double_exp (x : double) : double :=
  let q := exp_series 40 (Q_of_double x) 1 in
  match Qnum q with
  | Zpos a => nearest_double a (Qden q)
  | _ => PrimFloat.zero
  end.

(** The radial-basis-function kernel [exp(-|a - b|^2 / (2 sigma^2))]. *)
Definition double_rbf (sigma : Q) (a b : list double) : double :=
  let d2 :=
    fold_right PrimFloat.add PrimFloat.zero
      (Kernel_approximation.map2
         (fun x y => PrimFloat.mul (PrimFloat.sub x y) (PrimFloat.sub x y)) a b) in
  let s := double_of_Q sigma in
  double_exp (PrimFloat.opp
                (PrimFloat.div d2 (PrimFloat.mul (double_of_Z 2) (PrimFloat.mul s s)))).

(** Double arithmetic for the kernel approximation.  The pseudo-inverse
    is the one of a block with a single entry, its reciprocal, which is
    all that a single landmark needs; the orthogonal factorization is
    not used by the ensemble operation. *)
Definition double_numerics : Numerics :=
  mk_Numerics double PrimFloat.zero PrimFloat.add PrimFloat.mul
    (fun x n => PrimFloat.div x (double_of_Z (Z.of_nat n)))
    double_rbf
    (map (map (PrimFloat.div PrimFloat.one)))
    (fun A => (A, A)) (fun A => A)
    nat (fun g _ m => (seq 0 m, S g)).

(** Three observations of one variable, 0, 0.75 and 2, with [sigma = 1]
    and one landmark per draw. *)
Definition double_kernel : Kernel_approximation.t double_numerics :=
  Kernel_approximation.mk double_numerics
    (map (map double_of_Q) [[0]; [3 # 4]; [2]]%Q)
    (mk_settings 1 1 1 3).

(** The entry in row [i] and column [j]. *)
Definition entry (K : list (list double)) (i j : nat) : double :=
  nth j (nth i K []) PrimFloat.zero.

(* ================================================================== *)
(** ** Stepping through a method *)
(* ================================================================== *)

Lemma wp_bind {O A B} (m : M O A) (k : A -> M O B) Q s :
  wp m (fun r s' => match r with
                    | inl e => Q (inl e) s'
                    | inr a => wp (k a) Q s'
                    end) s ->
  wp (bind m k) Q s.
Proof.
  unfold wp, bind. destruct (m s) as [[e | a] s']; cbn [fst snd]; auto.
Qed.

Lemma wp_ret {O A} (a : A) Q (s : O * World) : Q (inr a) s -> wp (ret a) Q s.
Proof. exact (fun H => H). Qed.
Lemma wp_raise {O A} (e : exn) (Q : result A -> O * World -> Prop) s :
  Q (inl e) s -> wp (raise e) Q s.
Proof. exact (fun H => H). Qed.
Lemma wp_lift {O A} (r : result A) Q (s : O * World) : Q r s -> wp (lift r) Q s.
Proof. exact (fun H => H). Qed.
Lemma wp_get_self {O} Q (s : O * World) : Q (inr (fst s)) s -> wp get_self Q s.
Proof. exact (fun H => H). Qed.
Lemma wp_get_world {O} Q (s : O * World) : Q (inr (snd s)) s -> wp get_world Q s.
Proof. exact (fun H => H). Qed.
Lemma wp_set_self {O} (f : O -> O) Q (s : O * World) :
  Q (inr tt) (f (fst s), snd s) -> wp (set_self f) Q s.
Proof. exact (fun H => H). Qed.
Lemma wp_set_world {O} (f : World -> World) Q (s : O * World) :
  Q (inr tt) (fst s, f (snd s)) -> wp (set_world f) Q s.
Proof. exact (fun H => H). Qed.
Lemma wp_emit {O} (e : event) Q (s : O * World) :
  Q (inr tt) (fst s, emit_world e (snd s)) -> wp (emit e) Q s.
Proof. exact (fun H => H). Qed.

Lemma wp_emits {O A} (P : event -> Prop) (m : M O A) Q (s : O * World) :
  emits P m ->
  (forall r w' evs,
      Forall P evs ->
      trace w' = (trace (snd s) ++ evs)%list ->
      cwd w' = cwd (snd s) -> dirs w' = dirs (snd s) ->
      Q r (fst s, w')) ->
  wp m Q s.
Proof.
  intros Hm HQ. unfold wp. destruct (Hm s) as (evs & HP & Ho & Ht & Hc & Hd).
  destruct (m s) as [r [o' w']]; cbn [fst snd] in *. subst o'.
  eapply HQ; eauto.
Qed.

Section Emits.
Context {O : Type} (P : event -> Prop).

Lemma emits_silent {A} (m : M O A) :
  (forall s, snd (m s) = s) -> emits P m.
Proof.
  intros H s. exists []. rewrite H, app_nil_r. repeat split. constructor.
Qed.

Lemma emits_ret {A} (a : A) : emits P (@ret O A a).
Proof. apply emits_silent. reflexivity. Qed.
Lemma emits_raise {A} (e : exn) : emits P (@raise O A e).
Proof. apply emits_silent. reflexivity. Qed.
Lemma emits_lift {A} (r : result A) : emits P (@lift O A r).
Proof. apply emits_silent. reflexivity. Qed.
Lemma emits_get_self : emits P (@get_self O).
Proof. apply emits_silent. reflexivity. Qed.
Lemma emits_get_world : emits P (@get_world O).
Proof. apply emits_silent. reflexivity. Qed.

Lemma emits_emit (e : event) : P e -> emits P (@emit O e).
Proof. intros He s. exists [e]. repeat split. constructor; [ exact He | constructor ]. Qed.

Lemma emits_bind {A B} (m : M O A) (k : A -> M O B) :
  emits P m -> (forall a, emits P (k a)) -> emits P (bind m k).
Proof.
  intros Hm Hk s. unfold bind.
  destruct (Hm s) as (evs & HP & Ho & Ht & Hc & Hd).
  destruct (m s) as [[e | a] s']; cbn [fst snd] in *.
  - exists evs. auto.
  - destruct (Hk a s') as (evs' & HP' & Ho' & Ht' & Hc' & Hd').
    exists (evs ++ evs')%list.
    rewrite Ho', Ht', Hc', Hd', Ho, Ht, app_assoc.
    repeat split; auto. apply Forall_app; auto.
Qed.

Lemma emits_while {A} (body : Z -> A -> M O A) :
  (forall c a, emits P (body c a)) ->
  forall fuel counter layers acc,
    emits P (while_counter fuel counter layers body acc).
Proof.
  intros Hbody. induction fuel as [ | fuel IH]; intros counter layers acc;
    cbn [while_counter].
  - apply emits_ret.
  - destruct (counter <? layers).
    + apply emits_bind; [ apply Hbody | intro; apply IH ].
    + apply emits_ret.
Qed.
End Emits.

Ltac emits_step :=
  lazymatch goal with
  | |- emits _ (ret _) => apply emits_ret
  | |- emits _ (raise _) => apply emits_raise
  | |- emits _ (lift _) => apply emits_lift
  | |- emits _ get_self => apply emits_get_self
  | |- emits _ get_world => apply emits_get_world
  | |- emits _ (emit _) => apply emits_emit; exact I
  | |- emits _ (while_counter _ _ _ _ _) => apply emits_while; intros
  | |- emits _ (bind _ _) => apply emits_bind; [ | intros ]
  | |- emits _ (match ?x with _ => _ end) => destruct x
  end.

Lemma emits_plot_history {O} h k1 k2 a b c d e :
  emits (fun _ => True) (@plot_history O h k1 k2 a b c d e).
Proof. unfold plot_history. repeat emits_step. Qed.

Lemma emits_save_layer lib {O} m c u :
  emits (fun _ => True) (@save_layer lib O m c u).
Proof. unfold save_layer. repeat emits_step. Qed.

Lemma regressor_add_hidden_silent (self : MLP_regressor.t) (b : bool) :
  forall fuel counter L acc,
    emits is_quiet (while_counter fuel counter L (MLP_regressor.add_hidden self b) acc).
Proof.
  intros. apply emits_while. intros c a.
  unfold MLP_regressor.add_hidden. repeat emits_step.
Qed.

Lemma emits_regressor_save_layer c u :
  emits (fun _ => True) (MLP_regressor.save_layer c u).
Proof. unfold MLP_regressor.save_layer. repeat emits_step. Qed.

Lemma emits_getattr_save_txt :
  emits (fun _ => True) Autoencoder.getattr_save_txt.
Proof. unfold Autoencoder.getattr_save_txt. repeat emits_step. Qed.

Lemma wp_world_after {O A} (m : M O A) (P : World -> Prop) (s : O * World) :
  wp m (fun _ s' => P (snd s')) s -> P (world_after (m s)).
Proof. exact (fun H => H). Qed.

Lemma fresh_app (w w' : World) (evs : list event) :
  trace w' = (trace w ++ evs)%list -> fresh w w' = evs.
Proof.
  intros H. unfold fresh. rewrite H, skipn_app, skipn_all, Nat.sub_diag.
  reflexivity.
Qed.

Lemma untrained_intro (prefix : string) (w w' : World) (evs : list event) :
  trace w' = (trace w ++ evs)%list ->
  Forall (fun e => ~ is_training e) evs ->
  trained_implies_setup prefix w w'.
Proof.
  intros Ht Hno Hex. rewrite (fresh_app _ _ _ Ht) in Hex.
  apply Exists_exists in Hex. destruct Hex as (e & Hin & He).
  rewrite Forall_forall in Hno. destruct (Hno e Hin He).
Qed.

Lemma setup_intro (prefix : string) (w w' : World)
      (pre writes mid : list event) net b e post :
  let d := path_join (cwd w) (prefix ++ clock w) in
  let f := path_join d "recap_training.txt" in
  existsb (String.eqb d) (dirs w) = false ->
  In d (dirs w') -> cwd w' = d ->
  trace w' =
    (trace w ++ pre ++ [EMkdir d; EChdir d; EOpen f] ++ writes ++ [EClose f]
       ++ mid ++ ETrain net b e :: post)%list ->
  Forall is_print pre -> writes <> [] -> Forall (is_write_to f) writes ->
  Forall is_quiet mid ->
  trained_implies_setup prefix w w'.
Proof.
  intros d f Hnew Hin Hcwd Ht Hpre Hne Hw Hmid _.
  unfold setup_before_training. fold d. fold f.
  repeat split; auto.
  - intro Hd. assert (existsb (String.eqb d) (dirs w) = true) as Hex.
    { apply existsb_exists. exists d. split; [ exact Hd | apply String.eqb_refl ]. }
    congruence.
  - exists pre, writes, mid, net, b, e, post.
    rewrite (fresh_app _ _ _ Ht). auto.
Qed.

Lemma classifier_add_hidden_silent (self : MLP_classifier.t) (b : bool) :
  forall fuel counter L acc,
    emits is_quiet (while_counter fuel counter L (MLP_classifier.add_hidden self b) acc).
Proof.
  intros. apply emits_while. intros c a.
  unfold MLP_classifier.add_hidden.
  destruct (number_ne _ 0); repeat emits_step.
Qed.

Lemma quiet_not_training (e : event) : is_quiet e -> ~ is_training e.
Proof. destruct e; cbn; tauto. Qed.

Ltac head_of t := lazymatch t with ?f _ => head_of f | _ => t end.

Ltac wp_zeta := cbv beta iota zeta;
  cbn [fst snd emit_world cwd dirs clock trace local_Dropout
       Autoencoder.save_txt].

Ltac tail_emits :=
  repeat first [ apply emits_plot_history | apply emits_save_layer
               | apply emits_regressor_save_layer
               | apply emits_getattr_save_txt | emits_step ].

Ltac use_trace_facts H :=
  cbn [fst snd emit_world cwd dirs clock trace] in H;
  repeat match goal with
         | H' : trace ?v = _ |- _ =>
             is_var v; tryif constr_eq H' H then fail else rewrite H' in H
         | H' : cwd ?v = _ |- _ =>
             is_var v; tryif constr_eq H' H then fail else rewrite H' in H
         | H' : dirs ?v = _ |- _ =>
             is_var v; tryif constr_eq H' H then fail else rewrite H' in H
         end;
  cbn [fst snd emit_world cwd dirs clock trace] in H.

Ltac wp_frame P lem :=
  apply (wp_emits P); [ solve [lem] | ];
  let r := fresh "r" in let w' := fresh "w'" in let evs := fresh "evs" in
  let HP := fresh "HP" in let Ht := fresh "Ht" in
  let Hc := fresh "Hc" in let Hd := fresh "Hd" in
  intros r w' evs HP Ht Hc Hd;
  use_trace_facts Ht; use_trace_facts Hc; use_trace_facts Hd;
  wp_zeta.

Ltac wp_go loop :=
  repeat lazymatch goal with
    | |- wp (emit (ETrain _ _ _)) _ _ =>
        apply wp_emit; wp_zeta; wp_frame (fun _ : event => True) tail_emits
    | |- wp (bind _ _) _ _ => apply wp_bind
    | |- wp (ret _) _ _ => apply wp_ret; wp_zeta
    | |- wp (raise _) _ _ => apply wp_raise; wp_zeta
    | |- wp (lift _) _ _ => apply wp_lift; wp_zeta
    | |- wp get_self _ _ => apply wp_get_self; wp_zeta
    | |- wp get_world _ _ => apply wp_get_world; wp_zeta
    | |- wp (set_self _) _ _ => apply wp_set_self; wp_zeta
    | |- wp (set_world _) _ _ => apply wp_set_world; wp_zeta
    | |- wp (emit _) _ _ => apply wp_emit; wp_zeta
    | |- wp (while_counter _ _ _ _ _) _ _ => wp_frame is_quiet loop
    | |- wp (if ?b then _ else _) _ _ => destruct b eqn:?
    | |- wp (match ?x with _ => _ end) _ _ => destruct x
    | |- wp ?m _ _ => let h := head_of m in progress unfold h
    | |- match ?x with inl _ => _ | inr _ => _ end => destruct x
    end.

Ltac trace_eq :=
  cbn [fst snd emit_world cwd dirs clock trace];
  repeat match goal with
         | H : trace ?v = _ |- _ => is_var v; rewrite H
         end;
  repeat progress (cbn [app]; rewrite <- ?app_assoc);
  first [ reflexivity | symmetry; apply app_nil_r ].

Ltac no_training :=
  repeat first
    [ apply Forall_nil
    | apply Forall_cons; [ exact (fun H : False => H) | ]
    | apply Forall_app; split
    | (eapply Forall_impl; [ exact quiet_not_training | eassumption ]) ].

Ltac untrained := eapply untrained_intro; [ trace_eq | solve [no_training] ].

Ltac all_hold :=
  repeat first
    [ apply Forall_nil
    | apply Forall_cons; [ first [ exact I | reflexivity ] | ]
    | apply Forall_app; split
    | eassumption ].

Ltac trained_with pre writes mid :=
  eapply (setup_intro _ _ _ pre writes mid);
  [ eassumption
  | repeat match goal with
           | H : dirs ?v = _ |- _ => is_var v; rewrite H
           end; cbn [In dirs]; left; reflexivity
  | repeat match goal with
           | H : cwd ?v = _ |- _ => is_var v; rewrite H
           end; reflexivity
  | trace_eq
  | solve [all_hold]
  | discriminate
  | solve [all_hold]
  | solve [all_hold] ].

Ltac trained writes :=
  lazymatch goal with
  | HP : Forall is_quiet ?evs |- _ =>
      first [ trained_with uconstr:(@nil event) writes uconstr:((evs ++ [_])%list)
            | trained_with uconstr:(@nil event) writes uconstr:((_ :: evs ++ [_])%list)
            | trained_with uconstr:([EPrint _]) writes uconstr:((evs ++ [_])%list)
            | trained_with uconstr:([EPrint _]) writes uconstr:((_ :: evs ++ [_])%list) ]
  | _ =>
      first [ trained_with uconstr:(@nil event) writes uconstr:(@nil event)
            | trained_with uconstr:([EPrint _]) writes uconstr:(@nil event) ]
  end.

Lemma classifier_setup lib (o : MLP_classifier.t) (w : World) :
  trained_implies_setup "Train MLP class - " w
    (world_after (MLP_classifier.fit_network lib (o, w))).
Proof.
  apply wp_world_after.
  unfold MLP_classifier.fit_network.
  wp_go ltac:(apply classifier_add_hidden_silent).
  all: try untrained.
  all: trained uconstr:([EWrite _ _; EWrite _ _; EWrite _ _; EWrite _ _]).
Qed.

Lemma regressor_setup lib (o : MLP_regressor.t) (w : World) :
  trained_implies_setup "Train MLP regressor - " w
    (world_after (MLP_regressor.fit_network lib (o, w))).
Proof.
  apply wp_world_after.
  unfold MLP_regressor.fit_network.
  wp_go ltac:(apply regressor_add_hidden_silent).
  all: try untrained.
  all: trained uconstr:([EWrite _ _; EWrite _ _; EWrite _ _; EWrite _ _]).
Qed.

Lemma autoencoder_setup lib (o : Autoencoder.t) (w : World) :
  trained_implies_setup "Train Autoencoder - " w
    (world_after (Autoencoder.fit lib (o, w))).
Proof.
  apply wp_world_after.
  unfold Autoencoder.fit.
  wp_go ltac:(idtac).
  all: try untrained.
  all: trained uconstr:([EWrite _ _; EWrite _ _; EWrite _ _]).
Qed.

Lemma wp_outcome {O A} (m : M O A) (P : result A -> Prop) (s : O * World) :
  wp m (fun r _ => P r) s -> P (outcome (m s)).
Proof. exact (fun H => H). Qed.

Ltac any_emits :=
  repeat first
    [ apply emits_plot_history | apply emits_save_layer
    | apply emits_regressor_save_layer | apply emits_getattr_save_txt
    | emits_step
    | progress unfold MLP_classifier.add_hidden, MLP_regressor.add_hidden ].

Ltac wp_all :=
  repeat lazymatch goal with
    | |- wp (bind _ _) _ _ => apply wp_bind
    | |- wp (ret _) _ _ => apply wp_ret; wp_zeta
    | |- wp (raise _) _ _ => apply wp_raise; wp_zeta
    | |- wp (lift _) _ _ => apply wp_lift; wp_zeta
    | |- wp get_self _ _ => apply wp_get_self; wp_zeta
    | |- wp get_world _ _ => apply wp_get_world; wp_zeta
    | |- wp (set_self _) _ _ => apply wp_set_self; wp_zeta
    | |- wp (set_world _) _ _ => apply wp_set_world; wp_zeta
    | |- wp (emit _) _ _ => apply wp_emit; wp_zeta
    | |- wp (while_counter _ _ _ _ _) _ _ =>
        wp_frame (fun _ : event => True) any_emits
    | |- wp (if ?b then _ else _) _ _ => destruct b eqn:?
    | |- wp (match ?x with _ => _ end) _ _ => destruct x
    | |- wp ?m _ _ => let h := head_of m in progress unfold h
    | |- match ?x with inl _ => _ | inr _ => _ end => destruct x eqn:?
    end.

Lemma classifier_returns_predictions lib (o : MLP_classifier.t) (w : World) v :
  outcome (MLP_classifier.fit_network lib (o, w)) = inr v ->
  predictions_of lib (MLP_classifier.X o) v.
Proof.
  revert v.
  apply (wp_outcome _ (fun r => forall v, r = inr v -> _)).
  unfold MLP_classifier.fit_network.
  wp_all.
  all: intros v Hv; try discriminate Hv.
  all: injection Hv as <-.
  all: unfold predictions_of; eauto 10.
Qed.

Lemma regressor_returns_predictions lib (o : MLP_regressor.t) (w : World) v :
  outcome (MLP_regressor.fit_network lib (o, w)) = inr v ->
  predictions_of lib (MLP_regressor.X o) v.
Proof.
  revert v.
  apply (wp_outcome _ (fun r => forall v, r = inr v -> _)).
  unfold MLP_regressor.fit_network.
  wp_all.
  all: intros v Hv; try discriminate Hv.
  all: injection Hv as <-.
  all: unfold predictions_of; eauto 12.
Qed.

Lemma autoencoder_returns_none lib (o : Autoencoder.t) (w : World) v :
  outcome (Autoencoder.fit lib (o, w)) = inr v -> v = RNone.
Proof.
  revert v.
  apply (wp_outcome _ (fun r => forall v, r = inr v -> _)).
  unfold Autoencoder.fit.
  wp_all.
  all: intros v Hv; try discriminate Hv.
  all: injection Hv as <-; reflexivity.
Qed.

Lemma absent_intro (P : event -> Prop) (w w' : World) (evs : list event) :
  trace w' = (trace w ++ evs)%list ->
  Forall (fun e => ~ P e) evs ->
  ~ Exists P (fresh w w').
Proof.
  intros Ht Hno Hex. rewrite (fresh_app _ _ _ Ht) in Hex.
  apply Exists_exists in Hex. destruct Hex as (e & Hin & He).
  rewrite Forall_forall in Hno. destruct (Hno e Hin He).
Qed.

Lemma assign_keeps (a : Autoencoder.assignment) (s : Autoencoder.t * World) :
  Autoencoder.save_txt (fst (snd (Autoencoder.assign a s))) = Autoencoder.save_txt (fst s)
  /\ Autoencoder.X (fst (snd (Autoencoder.assign a s))) = Autoencoder.X (fst s).
Proof.
  destruct s as [o w].
  destruct a as [v | v | v | v]; cbn [Autoencoder.assign];
    unfold Autoencoder.neurons_setter, Autoencoder.activation_setter,
      Autoencoder.batch_size_setter, Autoencoder.n_epochs_setter,
      bind, lift, set_self, get_self, raise, ret;
    try (destruct v; cbn; auto; fail).
  - destruct v as [ | z | f | str | al nm]; cbn; auto.
    destruct (z <=? 0); cbn; auto.
    destruct (z >=? Z.of_nat (shape1 (Autoencoder.X o))); cbn; auto.
  - destruct v as [ | z | f | str | al nm]; cbn; auto.
    destruct (z <=? 0); cbn; auto.
  - destruct v as [ | z | f | str | al nm]; cbn; auto.
    destruct (z <=? 0); cbn; auto.
Qed.

Lemma configure_keeps (script : list Autoencoder.assignment) :
  forall s,
    Autoencoder.save_txt (fst (Autoencoder.configure script s)) = Autoencoder.save_txt (fst s)
    /\ Autoencoder.X (fst (Autoencoder.configure script s)) = Autoencoder.X (fst s).
Proof.
  induction script as [ | a rest IH]; intros s; cbn [Autoencoder.configure].
  - split; reflexivity.
  - destruct (IH (snd (Autoencoder.assign a s))) as [H1 H2].
    destruct (assign_keeps a s) as [H3 H4].
    rewrite H1, H2, H3, H4. split; reflexivity.
Qed.

Lemma autoencoder_fit_raises lib (o : Autoencoder.t) (w : World) :
  Autoencoder.save_txt o = None ->
  exists e, outcome (Autoencoder.fit lib (o, w)) = inl e.
Proof.
  intros Hnone. destruct o as [X n a b ep st]. cbn in Hnone. subst st.
  apply (wp_outcome _ (fun r => exists e, r = inl e)).
  unfold Autoencoder.fit.
  wp_all.
  all: eexists; reflexivity.
Qed.

Lemma autoencoder_fit_attribute_error lib (o : Autoencoder.t) (w : World) :
  Autoencoder.save_txt o = None ->
  (forall m, exists a, keras_predict lib m (Autoencoder.X o) = inr a) ->
  Exists is_predict (fresh w (world_after (Autoencoder.fit lib (o, w)))) ->
  outcome (Autoencoder.fit lib (o, w)) = inl (AttributeError "save_txt").
Proof.
  intros Hnone Hpred. destruct o as [X n a b ep st]. cbn in Hnone, Hpred. subst st.
  apply (@id (wp (Autoencoder.fit lib)
               (fun r s' => Exists is_predict (fresh w (snd s')) ->
                            r = inl (AttributeError "save_txt"))
               (Autoencoder.mk X n a b ep None, w))).
  unfold Autoencoder.fit.
  wp_all.
  all: try reflexivity.
  all: try (intros Hex; exfalso; revert Hex; eapply absent_intro;
            [ trace_eq | solve [no_training] ]).
  all: match goal with
       | H : keras_predict _ ?m _ = inl _ |- _ =>
           destruct (Hpred m) as [? Hok]; cbn in H; congruence
       end.
Qed.

Lemma while_fuel_enough {O A} (body : Z -> A -> M O A) :
  forall extra fuel counter L acc s,
    fuel = iterations counter L ->
    while_counter (fuel + extra) counter L body acc s
    = while_counter fuel counter L body acc s.
Proof.
  intros extra fuel. induction fuel as [ | fuel IH]; intros counter L acc s Hf.
  - unfold iterations in Hf. cbn [Nat.add while_counter].
    destruct extra; cbn [while_counter]; [ reflexivity | ].
    destruct (Z.ltb_spec counter L); [ lia | reflexivity ].
  - cbn [Nat.add while_counter]. destruct (counter <? L); [ | reflexivity ].
    unfold bind. destruct (body counter acc s) as [[e | a] s']; [ reflexivity | ].
    apply IH. unfold iterations in *. lia.
Qed.

Lemma classifier_add_hidden_run (self : MLP_classifier.t) (bound : bool)
      (c : Z) (acc : list layer) (s : MLP_classifier.t * World) :
  (number_ne (MLP_classifier._dropout self) 0 = true -> bound = true) ->
  MLP_classifier.add_hidden self bound c acc s
  = (inr (acc ++ block (Dense (MLP_classifier._n_neurons self)
                              (MLP_classifier._activation self) None None)
                       (MLP_classifier._dropout self))%list, s).
Proof.
  intros Hbound. unfold MLP_classifier.add_hidden, block.
  destruct (number_ne (MLP_classifier._dropout self) 0).
  - rewrite (Hbound eq_refl). cbn. rewrite <- app_assoc. reflexivity.
  - reflexivity.
Qed.

Lemma classifier_hidden_loop (self : MLP_classifier.t) (bound : bool) (L : Z) :
  (number_ne (MLP_classifier._dropout self) 0 = true -> bound = true) ->
  forall n counter acc (s : MLP_classifier.t * World),
    n = iterations counter L ->
    while_counter n counter L (MLP_classifier.add_hidden self bound) acc s
    = (inr (acc ++ List.concat (repeat
              (block (Dense (MLP_classifier._n_neurons self)
                            (MLP_classifier._activation self) None None)
                     (MLP_classifier._dropout self)) n))%list, s).
Proof.
  intros Hbound. induction n as [ | n IH]; intros counter acc s Hn.
  - cbn. rewrite app_nil_r. reflexivity.
  - cbn [while_counter repeat List.concat]. unfold iterations in Hn.
    destruct (Z.ltb_spec counter L); [ | lia ].
    unfold bind. rewrite classifier_add_hidden_run by exact Hbound.
    rewrite IH by (unfold iterations; lia).
    rewrite <- app_assoc. reflexivity.
Qed.

Lemma classifier_builds_configured_network (self : MLP_classifier.t)
      (input_dimension number_of_classes : nat) (activation_output : string)
      (s : MLP_classifier.t * World) :
  outcome (MLP_classifier.build_network self input_dimension number_of_classes
             activation_output s)
  = inr (expected_network (MLP_classifier._n_neurons self)
           (MLP_classifier._activation self) (MLP_classifier._dropout self)
           (MLP_classifier._layers self) "random_normal" input_dimension
           (Dense (Z.of_nat number_of_classes) (VStr activation_output)
                  (Some "random_normal") None)).
Proof.
  unfold MLP_classifier.build_network, expected_network, outcome.
  unfold block at 1.
  destruct (number_ne (MLP_classifier._dropout self) 0) eqn:Hd;
    cbn [local_Dropout]; unfold bind, lift, emit, set_world, ret;
    cbn [fst snd].
  - rewrite (classifier_hidden_loop self true (MLP_classifier._layers self))
      by (auto || reflexivity).
    unfold iterations. cbn [fst app]. rewrite <- ?app_assoc. reflexivity.
  - rewrite (classifier_hidden_loop self false (MLP_classifier._layers self))
      by (congruence || reflexivity).
    unfold iterations. cbn [fst app]. rewrite <- ?app_assoc. reflexivity.
Qed.

Lemma hidden_count_app (l l' : list layer) :
  hidden_count (l ++ l') = (hidden_count l + hidden_count l')%nat.
Proof.
  induction l as [ | x l IH]; [ reflexivity | ].
  destruct x; cbn [app hidden_count]; rewrite IH; reflexivity.
Qed.

Lemma hidden_count_blocks (dense : Z * pyval) (d : number) (n : nat) :
  hidden_count (List.concat (repeat (block (Dense (fst dense) (snd dense) None None) d) n)) = n.
Proof.
  induction n as [ | n IH]; [ reflexivity | ].
  cbn [repeat List.concat]. rewrite hidden_count_app, IH.
  unfold block. destruct (number_ne d 0); reflexivity.
Qed.

Lemma expected_network_has_L_hidden_layers N a d L init dim out :
  1 <= L ->
  hidden_count (expected_network N a d L init dim out)
  = S (hidden_count [out] + Z.to_nat (L - 1))%nat.
Proof.
  intros HL. unfold expected_network.
  rewrite !hidden_count_app.
  rewrite (hidden_count_blocks (N, a) d).
  unfold block. destruct (number_ne d 0); cbn [hidden_count]; lia.
Qed.

Lemma regressor_hidden_loop_unbound (self : MLP_regressor.t) (L : Z)
      (acc : list layer) (s : MLP_regressor.t * World) :
  2 <= L ->
  while_counter (iterations 1 L) 1 L (MLP_regressor.add_hidden self false) acc s
  = (inl (UnboundLocalError "Dropout"), s).
Proof.
  intros HL. unfold iterations.
  destruct (Z.to_nat (L - 1)) as [ | n] eqn:Hn; [ lia | ].
  cbn [while_counter]. destruct (Z.ltb_spec 1 L); [ | lia ].
  reflexivity.
Qed.

Lemma regressor_build_fails_without_dropout (self : MLP_regressor.t)
      (input_dimension output_dimension : nat) (activation_output : string)
      (s : MLP_regressor.t * World) :
  number_ne (MLP_regressor._dropout self) 0 = false ->
  2 <= MLP_regressor._layers self ->
  MLP_regressor.build_network self input_dimension output_dimension
    activation_output s
  = (inl (UnboundLocalError "Dropout"), s).
Proof.
  intros Hd HL. unfold MLP_regressor.build_network. rewrite Hd.
  unfold bind at 1. cbn [ret].
  unfold bind at 1. rewrite regressor_hidden_loop_unbound by exact HL.
  reflexivity.
Qed.

Lemma float_refused_cases (f : pyfloat) :
  float_refused f -> float_lt f 0 = true \/ float_ge f 1 = true.
Proof.
  destruct f as [q | negative | ]; cbn.
  - intros [Hlt | Hge].
    + left. apply negb_true_iff. apply not_true_is_false.
      intro Hle. apply Qle_bool_iff in Hle.
      change (inject_Z 0) with 0%Q in Hle. apply (Qlt_not_le _ _ Hlt Hle).
    + right. apply Qle_bool_iff. exact Hge.
  - intros _. destruct negative; auto.
  - intros [].
Qed.

Ltac run_setter_body :=
  cbv [bind lift set_self get_self raise ret outcome self_after world_after
       accepts_int accepts_float fst snd].

Ltac unfold_setters :=
  unfold MLP_classifier.neurons_setter, MLP_classifier.layers_setter,
    MLP_classifier.batch_size_setter, MLP_classifier.n_epochs_setter,
    MLP_classifier.dropout_setter,
    Autoencoder.neurons_setter, Autoencoder.batch_size_setter,
    Autoencoder.n_epochs_setter,
    MLP_regressor.neurons_setter, MLP_regressor.layers_setter,
    MLP_regressor.batch_size_setter, MLP_regressor.n_epochs_setter,
    MLP_regressor.dropout_setter in *.

Ltac reject_count z :=
  unfold_setters; run_setter_body; cbn;
  destruct (Z.leb_spec z 0); [ | lia ];
  eexists; split; [ | split; reflexivity ]; exact I.

Ltac reject_type :=
  unfold_setters; run_setter_body; cbn;
  eexists; split; [ | split; reflexivity ]; exact I.

Ltac reject_dropout f Hbad :=
  unfold_setters; run_setter_body; cbn;
  destruct (float_refused_cases f Hbad) as [H | H]; rewrite H;
  [ | destruct (float_lt f 0) ];
  eexists; (split; [ | split; reflexivity ]); exact I.

Lemma classifier_rejects (h : hyperparameter) set (v : pyval) :
  classifier_setter h = Some set -> invalid h v -> rejects set v.
Proof.
  intros Hset Hbad o w.
  destruct h; injection Hset as <-;
    destruct v as [ | z | f | s | a nm]; cbn in Hbad; try contradiction.
  1-4: reject_count z.
  - reject_type.
  - reject_dropout f Hbad.
Qed.

Lemma autoencoder_rejects (h : hyperparameter) set (v : pyval) :
  autoencoder_setter h = Some set -> invalid h v -> rejects set v.
Proof.
  intros Hset Hbad o w.
  destruct h; try discriminate Hset; injection Hset as <-;
    destruct v as [ | z | f | s | a nm]; cbn in Hbad; try contradiction.
  all: reject_count z.
Qed.

Lemma regressor_rejects (h : hyperparameter) set (v : pyval) :
  regressor_setter h = Some set -> invalid h v -> rejects set v.
Proof.
  intros Hset Hbad o w.
  destruct h; injection Hset as <-;
    destruct v as [ | z | f | s | a nm]; cbn in Hbad; try contradiction.
  1-4: reject_count z.
  - reject_type.
  - reject_dropout f Hbad.
Qed.

Lemma run_setter_rejects {O} (wrap : O -> recipe) setter v o w res r' w' :
  (forall set, setter = Some set -> rejects set v) ->
  run_setter wrap setter v o w = Some (res, (r', w')) ->
  (exists e, rejection e /\ res = inl e) /\ w' = w.
Proof.
  intros Hrej Hrun. unfold run_setter in Hrun.
  destruct setter as [set | ]; [ | discriminate Hrun ].
  destruct (Hrej set eq_refl o w) as (e & He & Hout & Hw).
  injection Hrun as <- _ <-. rewrite Hout, Hw. eauto.
Qed.

(** C1, as amended. For each of the three recipes, assigning through the
    setter the class defines for it a count of neurons, layers, batch
    size or epochs that is not positive, or a dropout that is a number
    below 0 or at least 1, raises at once: the assignment ends in an
    exception and the process environment is exactly what it was, so no
    directory was created and no training was started. *)
Theorem invalid_assignment_raises (r : recipe) (h : hyperparameter) (v : pyval)
        (w : World) res r' w' :
  assign r h v w = Some (res, (r', w')) ->
  invalid h v ->
  (exists e, rejection e /\ res = inl e) /\ w' = w.
Proof.
  intros Hrun Hbad. destruct r as [o | o | o]; cbn [assign] in Hrun;
    eapply run_setter_rejects; try exact Hrun; intros set Hset.
  - eapply classifier_rejects; eauto.
  - eapply autoencoder_rejects; eauto.
  - eapply regressor_rejects; eauto.
Qed.

(** C1 as stated fails for a dropout of NaN on a classifier fresh from
    its constructor: NaN is outside [[0,1)], but neither comparison of
    the setter catches it, and the assignment returns with NaN
    stored. *)
Lemma nan_dropout_is_accepted :
  MLP_classifier.init sample_X sample_Y false sample_world
  = (inr sample_classifier, sample_world)
  /\ outside_unit_interval FNaN
  /\ assign (Classifier sample_classifier) dropout (VFloat FNaN) sample_world
     = Some (inr tt,
             (Classifier (MLP_classifier.with_dropout (Float FNaN)
                            sample_classifier),
              sample_world)).
Proof.
  split; [ reflexivity | ]. split.
  - intros [H _]. discriminate H.
  - reflexivity.
Qed.

Ltac keep_count z :=
  unfold_setters; run_setter_body; cbn;
  repeat match goal with
         | |- context [if ?b then _ else _] => destruct b
         end; cbn; intros; congruence.

Lemma classifier_keeps (h : hyperparameter) set (v : pyval) :
  classifier_setter h = Some set -> keeps_rejected set (classifier_getter h) v.
Proof.
  intros Hset o w msg.
  destruct h; injection Hset as <-;
    destruct v as [ | z | f | s | a nm];
    try (unfold_setters; run_setter_body; cbn; congruence).
  all: keep_count z.
Qed.

Lemma autoencoder_keeps (h : hyperparameter) set (v : pyval) :
  autoencoder_setter h = Some set -> keeps_rejected set (autoencoder_getter h) v.
Proof.
  intros Hset o w msg.
  destruct h; try discriminate Hset; injection Hset as <-;
    destruct v as [ | z | f | s | a nm];
    try (unfold_setters; run_setter_body; cbn; congruence).
  all: keep_count z.
Qed.

Lemma regressor_keeps (h : hyperparameter) set (v : pyval) :
  regressor_setter h = Some set -> keeps_rejected set (regressor_getter h) v.
Proof.
  intros Hset o w msg.
  destruct h; injection Hset as <-;
    destruct v as [ | z | f | s | a nm];
    try (unfold_setters; run_setter_body; cbn; congruence).
  all: keep_count z.
Qed.

Lemma run_setter_keeps {O} (wrap : O -> recipe) setter (get : O -> pyval)
      v o w msg r' w' :
  (forall set, setter = Some set -> keeps_rejected set get v) ->
  run_setter wrap setter v o w = Some (inl (Exception msg), (r', w')) ->
  exists o', r' = wrap o' /\ get o' = v.
Proof.
  intros Hkeep Hrun. unfold run_setter in Hrun.
  destruct setter as [set | ]; [ | discriminate Hrun ].
  injection Hrun as Hout <- _.
  eexists; split; [ reflexivity | ]. eapply Hkeep; eauto.
Qed.


(** C6. Constructing an [MLP_classifier] or an [MLP_regressor] from two
    matrices whose numbers of rows differ raises an [Exception] in the
    constructor and leaves the process environment untouched. *)
Theorem mismatched_observations_rejected (X Y : ndarray) (save : bool) (w : World) :
  shape0 X <> shape0 Y ->
  (exists msg, MLP_classifier.init X Y save w = (inl (Exception msg), w))
  /\ (exists msg, MLP_regressor.init X Y save w = (inl (Exception msg), w)).
Proof.
  intros Hne. apply Nat.eqb_neq in Hne.
  unfold MLP_classifier.init, MLP_regressor.init. rewrite Hne. cbn [negb].
  split; eexists; reflexivity.
Qed.

(** NaN compares false with both bounds of the dropout check: it is
    neither below 0 nor at least 1, and the setter stores it. *)
Lemma dropout_nan_is_stored (o : MLP_classifier.t) (w : World) :
  MLP_classifier.dropout_setter (VFloat FNaN) (o, w)
  = (inr tt, (MLP_classifier.with_dropout (Float FNaN) o, w)).
Proof. reflexivity. Qed.

(* ================================================================== *)
(** ** Kernel approximation: shapes, validation and the ensemble mean *)
(* ================================================================== *)

Section KernelProperties.

Variable num : Numerics.

Local Abbreviation matrix := (Kernel_approximation.matrix num).
Local Abbreviation is_shape := (Kernel_approximation.is_shape num).
Local Abbreviation mul_transposed := (Kernel_approximation.mul_transposed num).
Local Abbreviation matmul := (Kernel_approximation.matmul num).
Local Abbreviation madd := (Kernel_approximation.madd num).
Local Abbreviation zeros := (Kernel_approximation.zeros num).
Local Abbreviation kernel_block := (Kernel_approximation.kernel_block num).
Local Abbreviation approximation := (Kernel_approximation.approximation num).
Local Abbreviation validate := (Kernel_approximation.validate num).
Local Abbreviation run := (Kernel_approximation.run num).
Local Abbreviation mean := (Kernel_approximation.mean num).
Local Abbreviation ensemble_of := (Kernel_approximation.ensemble_of num).
Local Abbreviation X := (Kernel_approximation.X num).
Local Abbreviation options := (Kernel_approximation.options num).

Lemma validate_rejects (self : Kernel_approximation.t num) :
  Kernel_approximation.misconfigured num self ->
  exists msg, validate self = inl (ConfigurationError msg).
Proof.
  unfold Kernel_approximation.misconfigured, Kernel_approximation.validate.
  cbv zeta. intros H.
  destruct (Z.ltb_spec (Z.of_nat (List.length (X self)))
                       (number_to_pick (options self))); [ eauto | ].
  destruct (Z.ltb_spec (number_to_pick (options self)) (rank (options self)));
    [ eauto | ].
  destruct (Qle_bool (sigma (options self)) 0) eqn:Hs; [ eauto | ].
  destruct (Z.leb_spec (rank (options self)) 0); [ eauto | ].
  destruct (Z.leb_spec (number_to_pick (options self)) 0); [ eauto | ].
  exfalso. destruct H as [H | [H | [H | [H | H]]]]; try lia.
  apply Qle_bool_iff in H. congruence.
Qed.

Lemma validate_accepts (self : Kernel_approximation.t num) :
  Kernel_approximation.well_configured num self -> validate self = inr tt.
Proof.
  unfold Kernel_approximation.well_configured, Kernel_approximation.validate.
  cbv zeta. intros (Hm & Hr & Hs).
  destruct (Z.ltb_spec (Z.of_nat (List.length (X self)))
                       (number_to_pick (options self))); [ lia | ].
  destruct (Z.ltb_spec (number_to_pick (options self)) (rank (options self)));
    [ lia | ].
  destruct (Qle_bool (sigma (options self)) 0) eqn:Hq.
  { apply Qle_bool_iff in Hq. exfalso. apply (Qlt_not_le _ _ Hs Hq). }
  destruct (Z.leb_spec (rank (options self)) 0); [ lia | ].
  destruct (Z.leb_spec (number_to_pick (options self)) 0); [ lia | ].
  reflexivity.
Qed.

Lemma mul_transposed_shape (A B : matrix) :
  is_shape (mul_transposed A B) (List.length A) (List.length B).
Proof.
  unfold Kernel_approximation.is_shape, Kernel_approximation.mul_transposed.
  split; [ apply length_map | ].
  apply Forall_map. apply Forall_forall. intros a _. apply length_map.
Qed.

Lemma matmul_rows (A B : matrix) : List.length (matmul A B) = List.length A.
Proof. unfold Kernel_approximation.matmul. apply mul_transposed_shape. Qed.

Lemma kernel_block_rows (s : Q) (A B : matrix) :
  List.length (kernel_block s A B) = List.length A.
Proof. unfold Kernel_approximation.kernel_block. apply length_map. Qed.

Lemma approximation_shape (self : Kernel_approximation.t num) (idx : list nat) :
  is_shape (approximation self idx) (List.length (X self)) (List.length (X self)).
Proof.
  unfold Kernel_approximation.approximation. cbv zeta.
  set (C := kernel_block _ (X self) _).
  assert (List.length C = List.length (X self)) as HC by apply kernel_block_rows.
  rewrite <- HC at 1. rewrite <- HC at 1.
  rewrite <- (matmul_rows C (pinv num (kernel_block (sigma (options self))
     (Kernel_approximation.select_rows num (X self) idx)
     (Kernel_approximation.select_rows num (X self) idx)))) at 1.
  apply mul_transposed_shape.
Qed.

Lemma map2_length {A B C} (f : A -> B -> C) (l : list A) :
  forall l', List.length l' = List.length l ->
             List.length (Kernel_approximation.map2 f l l') = List.length l.
Proof.
  induction l as [ | a l IH]; intros [ | b l'] H; cbn in *; try lia.
  rewrite IH; lia.
Qed.

Lemma madd_shape (A B : matrix) (n m : nat) :
  is_shape A n m -> is_shape B n m -> is_shape (madd A B) n m.
Proof.
  unfold Kernel_approximation.is_shape, Kernel_approximation.madd.
  intros [HA FA] [HB FB]. subst n. split.
  - apply map2_length. exact HB.
  - clear HB. revert B FB. induction A as [ | a A IH]; intros [ | b B] FB;
      cbn; try constructor.
    + inversion FA; inversion FB; subst. rewrite map2_length; congruence.
    + inversion FA; inversion FB; subst. apply IH; assumption.
Qed.

Lemma zeros_shape (n m : nat) : is_shape (zeros n m) n m.
Proof.
  unfold Kernel_approximation.is_shape, Kernel_approximation.zeros. split.
  - apply repeat_length.
  - apply Forall_forall. intros r Hr. apply repeat_spec in Hr. subst r.
    apply repeat_length.
Qed.

Lemma sum_shape (Ks : list matrix) (n : nat) :
  Forall (fun K => is_shape K n n) Ks ->
  is_shape (fold_right madd (zeros n n) Ks) n n.
Proof.
  induction 1 as [ | K Ks HK _ IH]; cbn [fold_right].
  - apply zeros_shape.
  - apply madd_shape; assumption.
Qed.

Lemma mean_shape (Ks : list matrix) (n : nat) :
  Forall (fun K => is_shape K n n) Ks -> is_shape (mean n Ks) n n.
Proof.
  intros H. destruct (sum_shape Ks n H) as [Hl Hr].
  unfold Kernel_approximation.mean, Kernel_approximation.is_shape. split.
  - rewrite length_map. exact Hl.
  - apply Forall_map. eapply Forall_impl; [ | exact Hr ].
    intros r Hlen. cbn. rewrite length_map. exact Hlen.
Qed.

Lemma ensemble_shape (self : Kernel_approximation.t num) (sets : list (list nat)) :
  is_shape (ensemble_of self sets) (List.length (X self)) (List.length (X self)).
Proof.
  unfold Kernel_approximation.ensemble_of. apply mean_shape.
  apply Forall_map. apply Forall_forall. intros idx _. apply approximation_shape.
Qed.

Section Shapes.

(** The orthogonal factor has as many rows as the factorized matrix. *)
Hypothesis qr_rows : forall A : matrix, List.length (fst (qr num A)) = List.length A.

Lemma well_configured_returns_square (op : Kernel_approximation.operation)
      (self : Kernel_approximation.t num) (e : Kernel_approximation.env num) :
  Kernel_approximation.well_configured num self ->
  exists K e',
    run op self e = (inr K, (self, e'))
    /\ is_shape K (List.length (X self)) (List.length (X self)).
Proof.
  intros Hok. apply validate_accepts in Hok.
  destruct op; cbn [Kernel_approximation.run];
    unfold Kernel_approximation.Nystrom_standard,
      Kernel_approximation.Nystrom_ensemble,
      Kernel_approximation.QRdecomposition; rewrite Hok.
  - destruct (Kernel_approximation.sample num self e) as [idx e'].
    eexists; eexists; split; [ reflexivity | apply approximation_shape ].
  - destruct (Kernel_approximation.sample_many num self _ e) as [sets e'].
    eexists; eexists; split; [ reflexivity | apply ensemble_shape ].
  - destruct (Kernel_approximation.sample num self e) as [idx e'].
    cbv zeta.
    pose proof (qr_rows (kernel_block (sigma (options self)) (X self)
                  (Kernel_approximation.select_rows num (X self) idx))) as Hq.
    destruct (qr num _) as [Qf Rf]. cbn [fst] in Hq.
    eexists; eexists; split; [ reflexivity | ].
    rewrite kernel_block_rows in Hq.
    set (Q_r := map (firstn (Z.to_nat (rank (options self)))) Qf).
    assert (List.length Q_r = List.length (X self)) as HQ
        by (unfold Q_r; rewrite length_map; exact Hq).
    rewrite <- HQ at 1. rewrite <- HQ at 1.
    rewrite <- (matmul_rows Q_r (core num (firstn (Z.to_nat (rank (options self))) Rf))) at 1.
    apply mul_transposed_shape.
Qed.

Lemma reference_scenario_well_configured (self : Kernel_approximation.t num)
      (data : matrix) :
  X self = example_rows data -> (2000 <= List.length data)%nat ->
  options self = example_settings ->
  List.length (X self) = 2000%nat /\ Kernel_approximation.well_configured num self.
Proof.
  intros HX Hlen Ho.
  assert (List.length (X self) = 2000%nat) as Hn.
  { rewrite HX. unfold example_rows. apply firstn_length_le. exact Hlen. }
  split; [ exact Hn | ].
  unfold Kernel_approximation.well_configured. cbv zeta. rewrite Ho, Hn.
  cbn. repeat split; try lia.
Qed.

(** C3. With a valid configuration each of the three operations returns
    a matrix with as many rows and as many columns as the input has
    rows, and leaves the input matrix as it was; in the scenario of the
    example (the first 2000 rows of the data, [number_to_pick] = 100,
    [sigma] = 1, [rank] = 30) the result is 2000 by 2000. *)
Theorem operations_return_square (op : Kernel_approximation.operation)
        (self : Kernel_approximation.t num) (e : Kernel_approximation.env num) :
  (Kernel_approximation.well_configured num self ->
   exists K e',
     run op self e = (inr K, (self, e'))
     /\ is_shape K (List.length (X self)) (List.length (X self)))
  /\ (forall data : matrix,
        X self = example_rows data -> (2000 <= List.length data)%nat ->
        options self = example_settings ->
        exists K e',
          run op self e = (inr K, (self, e')) /\ is_shape K 2000 2000).
Proof.
  split.
  - apply well_configured_returns_square.
  - intros data HX Hlen Ho.
    destruct (reference_scenario_well_configured self data HX Hlen Ho) as [Hn Hok].
    destruct (well_configured_returns_square op self e Hok) as (K & e' & Hrun & HK).
    exists K, e'. rewrite Hn in HK. auto.
Qed.

End Shapes.

Section Mean.

Hypothesis add_comm : forall x y : scalar num, add num x y = add num y x.
Hypothesis add_assoc :
  forall x y z : scalar num, add num x (add num y z) = add num (add num x y) z.

Lemma map2_comm {A B} (f : A -> A -> B) :
  (forall x y, f x y = f y x) ->
  forall l l', Kernel_approximation.map2 f l l' = Kernel_approximation.map2 f l' l.
Proof.
  intros Hf. induction l as [ | a l IH]; intros [ | b l']; cbn; try reflexivity.
  rewrite Hf, IH. reflexivity.
Qed.

Lemma map2_assoc {A} (f : A -> A -> A) :
  (forall x y z, f x (f y z) = f (f x y) z) ->
  forall l l' l'',
    Kernel_approximation.map2 f l (Kernel_approximation.map2 f l' l'')
    = Kernel_approximation.map2 f (Kernel_approximation.map2 f l l') l''.
Proof.
  intros Hf. induction l as [ | a l IH]; intros [ | b l'] [ | c l''];
    cbn; try reflexivity.
  rewrite Hf, IH. reflexivity.
Qed.

Lemma madd_comm (A B : matrix) : madd A B = madd B A.
Proof.
  unfold Kernel_approximation.madd. apply map2_comm.
  intros x y. apply map2_comm. exact add_comm.
Qed.

Lemma madd_assoc (A B C : matrix) : madd A (madd B C) = madd (madd A B) C.
Proof.
  unfold Kernel_approximation.madd. apply map2_assoc.
  intros x y z. apply map2_assoc. exact add_assoc.
Qed.

Lemma sum_permutation (Z0 : matrix) (Ks Ks' : list matrix) :
  Permutation Ks Ks' -> fold_right madd Z0 Ks = fold_right madd Z0 Ks'.
Proof.
  induction 1 as [ | K l l' _ IH | K K' l | l l' l'' _ IH1 _ IH2];
    cbn [fold_right].
  - reflexivity.
  - rewrite IH. reflexivity.
  - rewrite !madd_assoc, (madd_comm K' K). reflexivity.
  - rewrite IH1. exact IH2.
Qed.

Lemma mean_permutation (n : nat) (Ks Ks' : list matrix) :
  Permutation Ks Ks' -> mean n Ks = mean n Ks'.
Proof.
  intros HP. unfold Kernel_approximation.mean.
  rewrite (sum_permutation _ _ _ HP), (Permutation_length HP). reflexivity.
Qed.

(** C4, as amended. With a commutative and associative sum of scalars,
    as in exact arithmetic, the result of the ensemble operation does
    not depend on the order in which the landmark draws are combined:
    the combination is the mean of the per-draw approximations, and any
    permutation of the draws gives the same matrix. *)
Theorem ensemble_order_invariant (self : Kernel_approximation.t num)
      (sets sets' : list (list nat)) :
  Permutation sets sets' -> ensemble_of self sets = ensemble_of self sets'.
Proof.
  intros HP. unfold Kernel_approximation.ensemble_of.
  apply mean_permutation. apply Permutation_map. exact HP.
Qed.

End Mean.

(** C2. With [number_to_pick] above the number of rows, [rank] above
    [number_to_pick], or a [sigma], [rank] or [number_to_pick] that is
    not positive, each of the three operations ends in a configuration
    error, and neither the generator nor the count of landmark draws has
    moved: nothing was sampled. *)
Theorem misconfigured_fails_before_sampling (op : Kernel_approximation.operation)
      (self : Kernel_approximation.t num) (e : Kernel_approximation.env num) :
  Kernel_approximation.misconfigured num self ->
  exists msg, run op self e = (inl (ConfigurationError msg), (self, e)).
Proof.
  intros Hbad. destruct (validate_rejects self Hbad) as [msg Hmsg].
  exists msg. destruct op; cbn [Kernel_approximation.run];
    unfold Kernel_approximation.Nystrom_standard,
      Kernel_approximation.Nystrom_ensemble,
      Kernel_approximation.QRdecomposition; rewrite Hmsg; reflexivity.
Qed.

End KernelProperties.

Section Doubles.

Import PrimFloat.

(** C4 as stated fails in double precision, whose sum is commutative but
    not associative: for the observations 0, 0.75 and 2 of one variable,
    [sigma = 1] and one landmark per draw, combining the draws 0, 1, 2
    in the opposite order changes the last bits of the entry in row 1
    and column 2 of the mean. *)
Lemma ensemble_order_matters_in_doubles :
  Permutation [[0%nat]; [1%nat]; [2%nat]] [[2%nat]; [1%nat]; [0%nat]]
  /\ entry (Kernel_approximation.ensemble_of double_numerics double_kernel
              [[0%nat]; [1%nat]; [2%nat]]) 1 2
     = 0x1.5b6abe8f13551p-2%float
  /\ entry (Kernel_approximation.ensemble_of double_numerics double_kernel
              [[2%nat]; [1%nat]; [0%nat]]) 1 2
     = 0x1.5b6abe8f13553p-2%float
  /\ Kernel_approximation.ensemble_of double_numerics double_kernel
       [[0%nat]; [1%nat]; [2%nat]]
     <> Kernel_approximation.ensemble_of double_numerics double_kernel
          [[2%nat]; [1%nat]; [0%nat]].
Proof.
  split; [ exact (Permutation_rev [[0%nat]; [1%nat]; [2%nat]]) | ].
  assert (entry (Kernel_approximation.ensemble_of double_numerics double_kernel
                   [[0%nat]; [1%nat]; [2%nat]]) 1 2
          = 0x1.5b6abe8f13551p-2%float) as Hforward
      by (vm_compute; reflexivity).
  assert (entry (Kernel_approximation.ensemble_of double_numerics double_kernel
                   [[2%nat]; [1%nat]; [0%nat]]) 1 2
          = 0x1.5b6abe8f13553p-2%float) as Hbackward
      by (vm_compute; reflexivity).
  split; [ exact Hforward | ]. split; [ exact Hbackward | ].
  intros H. rewrite H, Hbackward in Hforward.
  apply (f_equal (PrimFloat.eqb 0x1.5b6abe8f13551p-2%float)) in Hforward.
  vm_compute in Hforward. discriminate Hforward.
Qed.

End Doubles.


(* ================================================================== *)
(** ** The fit methods *)
(* ================================================================== *)

(** Whenever a fit method gets as far as starting the training, it has
    before that, and in this order, created a new directory named by the
    recipe's prefix and the time stamp, moved the process into it, and
    written [recap_training.txt] there; these are its first effects
    apart from console output. *)
Theorem setup_precedes_training (lib : Libs) (r : recipe)
        (w : World) :
  Exists is_training (fresh w (fit_world lib r w)) ->
  setup_before_training (directory_prefix r) w (fit_world lib r w).
Proof.
  destruct r as [o | o | o]; cbn [fit_world directory_prefix].
  - exact (classifier_setup lib o w).
  - exact (autoencoder_setup lib o w).
  - exact (regressor_setup lib o w).
Qed.


(** C7 fails on [MLP_regressor]: with two hidden layers and the default
    dropout of 0, the loop reads the name [Dropout] that only the
    dropout branch imports, and [fit_network] raises instead of building
    the network.  ([classifier_builds_configured_network] is what the
    claim says, for the classifier.) *)
Theorem regressor_second_layer_without_dropout_fails :
  exists o w,
    MLP_regressor.init sample_X sample_Y false sample_world = (inr o, w)
    /\ outcome (MLP_regressor.layers_setter (VInt 2) (o, w)) = inr tt
    /\ fit_outcome sample_lib
         (Regressor (self_after (MLP_regressor.layers_setter (VInt 2) (o, w)))) w
       = inl (UnboundLocalError "Dropout").
Proof.
  eexists. eexists. split; [ reflexivity | ].
  split; [ reflexivity | ]. vm_compute. reflexivity.
Qed.

(** C10. An [Autoencoder] built by its constructor, whatever [save] was
    and whatever was assigned through its properties afterwards, has no
    [save_txt] attribute: [fit] never returns normally, and when it gets
    through training and prediction the exception is the
    [AttributeError] of that read. *)
Theorem autoencoder_fit_never_returns (lib : Libs) (X : ndarray) (save : bool)
        (script : list Autoencoder.assignment) (w0 : World)
        (o : Autoencoder.t) (w1 : World) :
  Autoencoder.init X save w0 = (inr o, w1) ->
  let s := Autoencoder.configure script (o, w1) in
  (exists e, outcome (Autoencoder.fit lib s) = inl e)
  /\ ((forall m, exists a, keras_predict lib m X = inr a) ->
      Exists is_predict (fresh (snd s) (world_after (Autoencoder.fit lib s))) ->
      outcome (Autoencoder.fit lib s) = inl (AttributeError "save_txt")).
Proof.
  intros Hinit s. unfold Autoencoder.init in Hinit.
  injection Hinit as <- <-.
  destruct (configure_keeps script
              (Autoencoder.mk X 1 (VStr "relu") 64 1000 None, w0)) as [Hs HX].
  fold s in Hs, HX. cbn [fst Autoencoder.save_txt Autoencoder.X] in Hs, HX.
  destruct s as [o' w']. cbn [fst snd] in *. split.
  - apply autoencoder_fit_raises. exact Hs.
  - intros Hp. apply autoencoder_fit_attribute_error; [ exact Hs | ].
    rewrite HX. exact Hp.
Qed.

(* ================================================================== *)
(** ** The statements at the sample inputs *)
(* ================================================================== *)

Ltac find_event :=
  repeat first [ apply Exists_cons_hd; exact I | apply Exists_cons_tl ].

Lemma invalid_assignment_raises_witness :
  exists res r' w',
    assign (Classifier sample_classifier) neurons (VInt 0) sample_world
    = Some (res, (r', w'))
    /\ ((exists e, rejection e /\ res = inl e) /\ w' = sample_world).
Proof.
  eexists. eexists. eexists. split; [ cbv; reflexivity | ].
  eapply (invalid_assignment_raises (Classifier sample_classifier) neurons
            (VInt 0) sample_world);
    [ cbv; reflexivity | cbn; lia ].
Defined.


Lemma mismatched_observations_rejected_witness :
  (exists msg, MLP_classifier.init sample_X short_Y false sample_world
               = (inl (Exception msg), sample_world))
  /\ (exists msg, MLP_regressor.init sample_X short_Y false sample_world
                  = (inl (Exception msg), sample_world)).
Proof.
  apply (mismatched_observations_rejected sample_X short_Y false sample_world).
  cbn. discriminate.
Defined.

Lemma setup_precedes_training_witness :
  setup_before_training "Train MLP class - " sample_world
    (fit_world sample_lib (Classifier sample_classifier) sample_world).
Proof.
  apply (setup_precedes_training sample_lib
           (Classifier sample_classifier) sample_world).
  vm_compute. find_event.
Defined.

Lemma autoencoder_fit_never_returns_witness :
  outcome (Autoencoder.fit sample_lib
             (Autoencoder.configure
                [Autoencoder.Set_batch_size (VInt 32);
                 Autoencoder.Set_neurons (VInt 0)]
                (sample_autoencoder, sample_world)))
  = inl (AttributeError "save_txt").
Proof.
  pose proof (autoencoder_fit_never_returns sample_lib sample_X true
                [Autoencoder.Set_batch_size (VInt 32);
                 Autoencoder.Set_neurons (VInt 0)]
                sample_world sample_autoencoder sample_world eq_refl) as H.
  cbv zeta in H. destruct H as [_ H]. apply H.
  - intros m. eexists. reflexivity.
  - vm_compute. find_event.
Defined.

Lemma misconfigured_fails_before_sampling_witness :
  exists msg,
    Kernel_approximation.run sample_numerics Kernel_approximation.QR
      (sample_kernel example_settings) sample_env
    = (inl (ConfigurationError msg), (sample_kernel example_settings, sample_env)).
Proof.
  apply (misconfigured_fails_before_sampling sample_numerics).
  left. cbn. lia.
Defined.

Lemma operations_return_square_witness :
  exists K e',
    Kernel_approximation.run sample_numerics Kernel_approximation.Standard
      (sample_kernel (mk_settings 2 1 1 10)) sample_env
    = (inr K, (sample_kernel (mk_settings 2 1 1 10), e'))
    /\ Kernel_approximation.is_shape sample_numerics K 3 3.
Proof.
  apply (proj1 (operations_return_square sample_numerics (fun A => eq_refl)
                  Kernel_approximation.Standard
                  (sample_kernel (mk_settings 2 1 1 10)) sample_env)).
  unfold Kernel_approximation.well_configured. cbn.
  repeat split; try lia.
Defined.

Lemma ensemble_order_invariant_witness :
  Kernel_approximation.ensemble_of sample_numerics
    (sample_kernel example_settings) [[0%nat]; [1%nat]]
  = Kernel_approximation.ensemble_of sample_numerics
      (sample_kernel example_settings) [[1%nat]; [0%nat]].
Proof.
  apply (ensemble_order_invariant sample_numerics Z.add_comm Z.add_assoc).
  apply perm_swap.
Defined.

(* ================================================================== *)
(** ** The setters, value by value *)
(* ================================================================== *)

Ltac setter_cases :=
  unfold_setters; run_setter_body;
  cbn [MLP_classifier.with_n_neurons MLP_classifier.with_layers
       MLP_classifier.with_batch_size MLP_classifier.with_n_epochs
       MLP_classifier.with_dropout MLP_classifier._n_neurons
       MLP_classifier._layers MLP_classifier._batch_size
       MLP_classifier._n_epochs MLP_classifier._dropout
       Autoencoder.with_n_neurons Autoencoder.with_batch_size
       Autoencoder.with_n_epochs Autoencoder._n_neurons Autoencoder.X
       Autoencoder._batch_size Autoencoder._n_epochs
       MLP_regressor.with_n_neurons MLP_regressor.with_layers
       MLP_regressor.with_batch_size MLP_regressor.with_n_epochs
       MLP_regressor.with_dropout MLP_regressor._n_neurons
       MLP_regressor._layers MLP_regressor._batch_size
       MLP_regressor._n_epochs MLP_regressor._dropout].

Lemma assign_some (r : recipe) (h : hyperparameter) (v : pyval) (w : World)
      res r' w' :
  assign r h v w = Some (res, (r', w')) ->
  match r with
  | Classifier o => exists set, classifier_setter h = Some set
      /\ res = outcome (set v (o, w)) /\ r' = Classifier (self_after (set v (o, w)))
      /\ w' = world_after (set v (o, w))
  | Encoder o => exists set, autoencoder_setter h = Some set
      /\ res = outcome (set v (o, w)) /\ r' = Encoder (self_after (set v (o, w)))
      /\ w' = world_after (set v (o, w))
  | Regressor o => exists set, regressor_setter h = Some set
      /\ res = outcome (set v (o, w)) /\ r' = Regressor (self_after (set v (o, w)))
      /\ w' = world_after (set v (o, w))
  end.
Proof.
  destruct r as [o | o | o]; cbn [assign]; unfold run_setter;
    intros H;
    match type of H with
    | match ?s with _ => _ end = _ => destruct s as [set | ]; [ | discriminate H ]
    end;
    injection H as <- <- <-; exists set; auto.
Qed.

(** X1. An integer assigned to a count property (neurons, layers, batch
    size, epochs) is accepted exactly when it is positive and, for the
    neurons of an [Autoencoder], below the number of columns of [X];
    accepted or not, the property then reads back that integer and the
    process environment is untouched. *)
Theorem integer_assignment_accepted_iff (r : recipe) (h : hyperparameter) (z : Z)
        (w : World) res r' w' :
  h <> dropout ->
  assign r h (VInt z) w = Some (res, (r', w')) ->
  (res = inr tt <-> 0 < z /\ below z (upper_bound r h))
  /\ stored r' h = VInt z
  /\ w' = w.
Proof.
  intros Hh Hrun. apply assign_some in Hrun.
  destruct r as [o | o | o]; destruct Hrun as (set & Hset & -> & -> & ->);
    destruct h; try congruence; try discriminate Hset;
    injection Hset as <-; cbn [upper_bound below stored classifier_getter
                                 autoencoder_getter regressor_getter];
    setter_cases.
  all: destruct (Z.leb_spec z 0); cbn [fst snd];
    try (repeat split; try reflexivity; try (intros; lia); intros; try discriminate; lia).
  all: destruct (Z.geb_spec z (Z.of_nat (shape1 (Autoencoder.X o)))); cbn [fst snd].
  all: repeat split; try reflexivity; try (intros; lia); intros; try discriminate; try lia.
  all: match goal with H : _ /\ _ |- _ => destruct H; lia end.
Qed.

Lemma float_in_unit_cases (f : pyfloat) :
  float_in_unit f <-> float_lt f 0 = false /\ float_ge f 1 = false.
Proof.
  destruct f as [q | negative | ]; cbn.
  - change (inject_Z 0) with 0%Q. change (inject_Z 1) with 1%Q.
    rewrite negb_false_iff. split.
    + intros [H0 H1]. split.
      * apply Qle_bool_iff. exact H0.
      * apply not_true_is_false. intro H. apply Qle_bool_iff in H.
        apply (Qlt_not_le _ _ H1 H).
    + intros [H0 H1]. split.
      * apply Qle_bool_iff. exact H0.
      * apply Qnot_le_lt. intro H. apply Qle_bool_iff in H. congruence.
  - destruct negative; cbn; split; intros H; try contradiction;
      destruct H; discriminate.
  - tauto.
Qed.

(** X2. A float assigned to the dropout of an [MLP_classifier] or an
    [MLP_regressor] is accepted exactly when it lies in [[0,1)] or is
    NaN (which neither comparison of the setter catches); accepted or
    not, the property reads back that float and the process environment
    is untouched. *)
Theorem dropout_assignment_accepted_iff (r : recipe) (f : pyfloat) (w : World)
        res r' w' :
  assign r dropout (VFloat f) w = Some (res, (r', w')) ->
  (res = inr tt <-> float_in_unit f)
  /\ stored r' dropout = VFloat f
  /\ w' = w.
Proof.
  intros Hrun. apply assign_some in Hrun. rewrite float_in_unit_cases.
  destruct r as [o | o | o]; destruct Hrun as (set & Hset & -> & -> & ->);
    try discriminate Hset; injection Hset as <-;
    cbn [stored classifier_getter regressor_getter]; setter_cases;
    cbn [number_lt number_ge];
    destruct (float_lt f 0), (float_ge f 1); cbn [fst snd number_value];
    repeat split; try reflexivity; intros; try discriminate;
    match goal with H : _ /\ _ |- _ => destruct H; discriminate end.
Qed.

Lemma setter_frame_classifier (h : hyperparameter) set (v : pyval)
      (o : MLP_classifier.t) (w : World) :
  classifier_setter h = Some set ->
  let o' := self_after (set v (o, w)) in
  (forall h', h' <> h -> classifier_getter h' o' = classifier_getter h' o)
  /\ MLP_classifier._activation o' = MLP_classifier._activation o
  /\ MLP_classifier.X o' = MLP_classifier.X o
  /\ MLP_classifier.Y o' = MLP_classifier.Y o
  /\ MLP_classifier.save_txt o' = MLP_classifier.save_txt o
  /\ world_after (set v (o, w)) = w.
Proof.
  intros Hset. destruct h; injection Hset as <-;
    destruct v as [ | z | f | s | a nm]; setter_cases; cbn [fst snd];
    repeat match goal with
           | |- context [if ?b then _ else _] => destruct b
           end; cbn [fst snd];
    (split; [ intros h' Hh'; destruct h'; try congruence; reflexivity
            | repeat split ]).
Qed.

Lemma setter_frame_autoencoder (h : hyperparameter) set (v : pyval)
      (o : Autoencoder.t) (w : World) :
  autoencoder_setter h = Some set ->
  let o' := self_after (set v (o, w)) in
  (forall h', h' <> h -> autoencoder_getter h' o' = autoencoder_getter h' o)
  /\ Autoencoder._activation o' = Autoencoder._activation o
  /\ Autoencoder.X o' = Autoencoder.X o
  /\ Autoencoder.save_txt o' = Autoencoder.save_txt o
  /\ world_after (set v (o, w)) = w.
Proof.
  intros Hset. destruct h; try discriminate Hset; injection Hset as <-;
    destruct v as [ | z | f | s | a nm]; setter_cases; cbn [fst snd];
    repeat match goal with
           | |- context [if ?b then _ else _] => destruct b
           end; cbn [fst snd];
    (split; [ intros h' Hh'; destruct h'; try congruence; reflexivity
            | repeat split ]).
Qed.

Lemma setter_frame_regressor (h : hyperparameter) set (v : pyval)
      (o : MLP_regressor.t) (w : World) :
  regressor_setter h = Some set ->
  let o' := self_after (set v (o, w)) in
  (forall h', h' <> h -> regressor_getter h' o' = regressor_getter h' o)
  /\ MLP_regressor._activation o' = MLP_regressor._activation o
  /\ MLP_regressor.X o' = MLP_regressor.X o
  /\ MLP_regressor.Y o' = MLP_regressor.Y o
  /\ MLP_regressor.save_txt o' = MLP_regressor.save_txt o
  /\ world_after (set v (o, w)) = w.
Proof.
  intros Hset. destruct h; injection Hset as <-;
    destruct v as [ | z | f | s | a nm]; setter_cases; cbn [fst snd];
    repeat match goal with
           | |- context [if ?b then _ else _] => destruct b
           end; cbn [fst snd];
    (split; [ intros h' Hh'; destruct h'; try congruence; reflexivity
            | repeat split ]).
Qed.

(** X3. An assignment through a validated property, whatever the value
    and whether it is accepted or refused, changes at most the one
    attribute behind that property: every other hyperparameter, the
    activation, the data [X] and [Y], the [save_txt] flag and the
    process environment stay as they were. *)
Theorem assignment_changes_one_attribute (r : recipe) (h : hyperparameter)
        (v : pyval) (w : World) res r' w' :
  assign r h v w = Some (res, (r', w')) ->
  (forall h', h' <> h -> stored r' h' = stored r h')
  /\ activation_of r' = activation_of r
  /\ fixed_attributes r' = fixed_attributes r
  /\ w' = w.
Proof.
  intros Hrun. apply assign_some in Hrun.
  destruct r as [o | o | o]; destruct Hrun as (set & Hset & -> & -> & ->);
    cbn [stored activation_of fixed_attributes].
  - destruct (setter_frame_classifier h set v o w Hset)
      as (H1 & H2 & H3 & H4 & H5 & H6).
    rewrite H3, H4, H5. auto.
  - destruct (setter_frame_autoencoder h set v o w Hset)
      as (H1 & H2 & H3 & H4 & H5).
    rewrite H3, H4. auto.
  - destruct (setter_frame_regressor h set v o w Hset)
      as (H1 & H2 & H3 & H4 & H5 & H6).
    rewrite H3, H4, H5. auto.
Qed.

Lemma new_activation_value_fixed (v : pyval) :
  new_activation_value v = v <-> v <> VStr "leaky_relu".
Proof.
  destruct v as [ | z | f | s | a nm]; cbn [new_activation_value];
    try (split; [ intros _; discriminate | reflexivity ]).
  destruct (String.eqb_spec s "leaky_relu") as [-> | Hne].
  - split; [ discriminate | intros H; destruct (H eq_refl) ].
  - split; [ intros _ H; injection H as H; auto | reflexivity ].
Qed.

(** X4. Assigning the activation never raises and touches no other
    attribute and nothing of the process environment.  The property
    reads back the assigned value, except for the string ['leaky_relu']:
    that one is replaced by a [LeakyReLU] layer object with slope 0.0001
    whose name is set to ['relu']. *)
Theorem activation_assignment_round_trip (r : recipe) (v : pyval) (w : World) :
  exists r',
    assign_activation r v w = (inr tt, (r', w))
    /\ (activation_of r' = v <-> v <> VStr "leaky_relu")
    /\ (v = VStr "leaky_relu" ->
        activation_of r' = VLeakyReLU (1 # 10000) "relu")
    /\ (forall h, stored r' h = stored r h)
    /\ fixed_attributes r' = fixed_attributes r.
Proof.
  destruct r as [o | o | o]; eexists; (split; [ reflexivity | ]);
    cbn [self_after fst snd MLP_classifier.activation_setter
         Autoencoder.activation_setter MLP_regressor.activation_setter
         set_self activation_of MLP_classifier.with_activation
         MLP_classifier._activation Autoencoder.with_activation
         Autoencoder._activation MLP_regressor.with_activation
         MLP_regressor._activation];
    (split; [ apply new_activation_value_fixed | ]);
    (split; [ intros ->; reflexivity | ]);
    (split; [ intros h; destruct h; reflexivity | reflexivity ]).
Qed.

(* ================================================================== *)
(** ** Every run of a fit *)
(* ================================================================== *)

Lemma ext_refl P t : ext P t t.
Proof. exists []. rewrite app_nil_r. auto. Qed.

Lemma ext_snoc P t T e : ext P t T -> P e -> ext P t (T ++ [e])%list.
Proof.
  intros (evs & -> & H) He. exists (evs ++ [e])%list.
  rewrite app_assoc. split; [ reflexivity | ].
  apply Forall_app. auto.
Qed.

Lemma ext_app P t T evs : ext P t T -> Forall P evs -> ext P t (T ++ evs)%list.
Proof.
  intros (evs0 & -> & H) He. exists (evs0 ++ evs)%list.
  rewrite app_assoc. split; [ reflexivity | ].
  apply Forall_app. auto.
Qed.

Lemma ext_var P t T T' : T' = T -> ext P t T -> ext P t T'.
Proof. intros ->. auto. Qed.

Lemma since_emit P w W e : since P w W -> P e -> since P w (emit_world e W).
Proof. apply ext_snoc. Qed.

Lemma since_mk P w c d k T : ext P (trace w) T -> since P w (mk_World c d k T).
Proof. exact (fun H => H). Qed.

Lemma since_var P w W T : trace W = T -> ext P (trace w) T -> since P w W.
Proof. unfold since. intros ->. auto. Qed.

Lemma since_refl P w : since P w w.
Proof. apply ext_refl. Qed.

Lemma since_fresh P w W : since P w W -> Forall P (fresh w W).
Proof. intros (evs & Ht & H). rewrite (fresh_app _ _ _ Ht). exact H. Qed.

Lemma wp_eq {O A} (m : M O A) Q (s : O * World) r s' :
  m s = (r, s') -> Q r s' -> wp m Q s.
Proof. unfold wp. intros ->. auto. Qed.

Lemma wp_emits_in {O A} (c : string) (P : event -> Prop) (m : M O A) Q
      (s : O * World) :
  emits_in c P m ->
  cwd (snd s) = c ->
  (forall r w' evs,
      Forall P evs ->
      trace w' = (trace (snd s) ++ evs)%list ->
      cwd w' = cwd (snd s) -> dirs w' = dirs (snd s) ->
      Q r (fst s, w')) ->
  wp m Q s.
Proof.
  intros Hm Hc HQ. unfold wp.
  destruct (Hm s Hc) as (evs & HP & Ho & Ht & Hc' & Hd).
  destruct (m s) as [r [o' w']]; cbn [fst snd] in *. subst o'.
  eapply HQ; eauto.
Qed.

Lemma emits_in_while {O A} (c : string) (P : event -> Prop)
      (body : Z -> A -> M O A) (lo L : Z) :
  (forall counter a, lo <= counter < L -> emits_in c P (body counter a)) ->
  forall fuel counter acc,
    lo <= counter -> emits_in c P (while_counter fuel counter L body acc).
Proof.
  intros Hbody. induction fuel as [ | fuel IH]; intros counter acc Hlo s Hc;
    cbn [while_counter].
  - exists []. rewrite app_nil_r. repeat split. constructor.
  - destruct (Z.ltb_spec counter L) as [Hlt | Hge].
    + unfold bind.
      destruct (Hbody counter acc (conj Hlo Hlt) s Hc)
        as (evs & HP & Ho & Ht & Hc' & Hd).
      destruct (body counter acc s) as [[e | a] s']; cbn [fst snd] in *.
      * exists evs. auto.
      * destruct (IH (counter + 1) a ltac:(lia) s' ltac:(congruence))
          as (evs' & HP' & Ho' & Ht' & Hc'' & Hd').
        exists (evs ++ evs')%list.
        rewrite Ho', Ht', Hc'', Hd', Ho, Ht, app_assoc.
        repeat split; auto. apply Forall_app; auto.
    + exists []. rewrite app_nil_r. repeat split. constructor.
Qed.

Lemma existsb_eqb_false (d : string) (l : list string) :
  existsb (String.eqb d) l = false -> ~ In d l.
Proof.
  intros H Hin. assert (existsb (String.eqb d) l = true) as Hex.
  { apply existsb_exists. exists d. split; [ exact Hin | apply String.eqb_refl ]. }
  congruence.
Qed.

Ltac emits_auto tac :=
  repeat lazymatch goal with
    | |- emits _ (ret _) => apply emits_ret
    | |- emits _ (raise _) => apply emits_raise
    | |- emits _ (lift _) => apply emits_lift
    | |- emits _ get_self => apply emits_get_self
    | |- emits _ get_world => apply emits_get_world
    | |- emits _ (emit _) => apply emits_emit; tac
    | |- emits _ (while_counter _ _ _ _ _) => apply emits_while; intros
    | |- emits _ (bind _ _) => apply emits_bind; [ | intros ]
    | |- emits _ (match ?x with _ => _ end) => destruct x
    | |- emits _ ?m => let h := head_of m in progress unfold h
    end.

Ltac wp_reduce :=
  cbv beta iota zeta;
  cbn [fst snd emit_world cwd dirs clock trace local_Dropout
       MLP_classifier.save_txt MLP_classifier.with_Y MLP_classifier.X
       MLP_classifier.Y MLP_classifier._activation MLP_classifier._batch_size
       MLP_classifier._n_epochs MLP_classifier._n_neurons
       MLP_classifier._layers MLP_classifier._dropout
       Autoencoder.save_txt Autoencoder.X Autoencoder._activation
       Autoencoder._batch_size Autoencoder._n_epochs Autoencoder._n_neurons
       MLP_regressor.save_txt MLP_regressor.X MLP_regressor.Y
       MLP_regressor._activation MLP_regressor._batch_size
       MLP_regressor._n_epochs MLP_regressor._n_neurons
       MLP_regressor._layers MLP_regressor._dropout
       str_concat3].

Ltac framed_intros :=
  let r := fresh "r" in let w' := fresh "w'" in let evs := fresh "evs" in
  let HP := fresh "HP" in let Ht := fresh "Ht" in
  let Hc := fresh "Hc" in let Hd := fresh "Hd" in
  intros r w' evs HP Ht Hc Hd;
  cbn [fst snd emit_world cwd dirs clock trace] in Ht, Hc, Hd;
  wp_reduce.

Ltac wp_framed P tac :=
  apply (wp_emits P); [ solve [emits_auto tac] | ]; framed_intros.

Ltac wp_run P tac hook :=
  repeat lazymatch goal with
    | |- wp (bind _ _) _ _ => apply wp_bind
    | |- wp (ret _) _ _ => apply wp_ret; wp_reduce
    | |- wp (raise _) _ _ => apply wp_raise; wp_reduce
    | |- wp (lift _) _ _ => apply wp_lift; wp_reduce
    | |- wp get_self _ _ => apply wp_get_self; wp_reduce
    | |- wp get_world _ _ => apply wp_get_world; wp_reduce
    | |- wp (set_self _) _ _ => apply wp_set_self; wp_reduce
    | |- wp (set_world _) _ _ => apply wp_set_world; wp_reduce
    | |- wp (emit _) _ _ => apply wp_emit; wp_reduce
    | |- wp (while_counter _ _ _ _ _) _ _ =>
        first [ hook | wp_framed P tac ]
    | |- wp (if ?b then _ else _) _ _ => destruct b eqn:?
    | |- wp (match ?x with _ => _ end) _ _ => destruct x
    | |- wp ?m _ _ => first [ hook | let h := head_of m in progress unfold h ]
    | |- match ?x with inl _ => _ | inr _ => _ end => destruct x eqn:?
    end.

Ltac since_solve tac :=
  repeat first
    [ apply since_refl
    | apply ext_refl
    | apply since_emit; [ | solve [tac] ]
    | apply since_mk
    | apply ext_snoc; [ | solve [tac] ]
    | apply ext_app; [ | eassumption ]
    | (eapply since_var; [ eassumption | ])
    | (eapply ext_var; [ eassumption | ]) ].

Ltac not_it := exact (fun H : False => H).

Ltac subst_flags :=
  repeat match goal with
         | H : ?x = true |- _ => is_var x; subst x
         | H : ?x = false |- _ => is_var x; subst x
         end.

Lemma classifier_build_run (self : MLP_classifier.t)
      (input_dimension number_of_classes : nat) (activation_output : string)
      (s : MLP_classifier.t * World) (b : bool) :
  number_ne (MLP_classifier._dropout self) 0 = b ->
  MLP_classifier.build_network self input_dimension number_of_classes
    activation_output s
  = (inr (expected_network (MLP_classifier._n_neurons self)
            (MLP_classifier._activation self) (MLP_classifier._dropout self)
            (MLP_classifier._layers self) "random_normal" input_dimension
            (Dense (Z.of_nat number_of_classes) (VStr activation_output)
                   (Some "random_normal") None)),
     (fst s, if b then emit_world (EPrint "Dropping out some neurons...") (snd s)
             else snd s)).
Proof.
  intros Hd. unfold MLP_classifier.build_network, expected_network.
  unfold block at 1. rewrite Hd. destruct s as [o w].
  destruct b; cbn [local_Dropout]; unfold bind, lift, emit, set_world, ret;
    cbn [fst snd].
  - rewrite (classifier_hidden_loop self true (MLP_classifier._layers self))
      by (auto || reflexivity).
    unfold iterations. cbn [fst app]. rewrite <- ?app_assoc. reflexivity.
  - rewrite (classifier_hidden_loop self false (MLP_classifier._layers self))
      by (congruence || reflexivity).
    unfold iterations. cbn [fst app]. rewrite <- ?app_assoc. reflexivity.
Qed.

Lemma classifier_save_loop_emits lib (o : MLP_classifier.t) (w : World)
      (m : trained lib) (fuel : nat) :
  MLP_classifier.save_txt o = true ->
  emits_in (run_directory (Classifier o) w) (fit_event (Classifier o) w)
    (while_counter fuel 0 (MLP_classifier._layers o)
       (@save_layer lib MLP_classifier.t m) tt).
Proof.
  intros Hsave. apply (emits_in_while _ _ _ 0); [ | lia ].
  intros c [] Hc s Hcwd. unfold save_layer, bind, lift, get_world, emit, set_world.
  destruct (keras_get_weights lib m c) as [e | wb]; cbn [fst snd].
  - exists []. rewrite app_nil_r. repeat split. constructor.
  - eexists [_; _]. cbn [emit_world trace cwd dirs].
    rewrite <- app_assoc. cbn [app].
    split; [ | repeat split ].
    rewrite Hcwd.
    apply Forall_cons; [ | apply Forall_cons; [ | apply Forall_nil ] ];
      (split; [ exact Hsave | ]); exists c; auto.
Qed.

Ltac classifier_hook o w :=
  idtac;
  lazymatch goal with
  | |- wp (MLP_classifier.build_network ?self _ _ _) _ _ =>
      destruct (number_ne (MLP_classifier._dropout self) 0) eqn:?;
      (eapply wp_eq; [ apply classifier_build_run; eassumption | wp_reduce ])
  | |- wp (while_counter _ _ _ (save_layer _ _) _) _ _ =>
      eapply wp_emits_in;
      [ apply (classifier_save_loop_emits _ o w); reflexivity | reflexivity | ];
      framed_intros
  end.

Ltac event_ok :=
  first [ exact I | reflexivity | (left; reflexivity)
        | (right; left; reflexivity)
        | (split; [ reflexivity | left; reflexivity ])
        | (split; [ reflexivity | right; left; reflexivity ])
        | (split; [ reflexivity | right; right; left; reflexivity ])
        | (split; [ reflexivity
                  | split; [ reflexivity
                           | split; [ eexists; reflexivity | ] ] ]) ].

Ltac world_ok :=
  cbn [cwd dirs emit_world];
  first
    [ left; split; [ reflexivity | split; [ reflexivity | eexists; reflexivity ] ]
    | right; split;
      [ apply existsb_eqb_false; eassumption
      | split; first [ reflexivity | eassumption ] ] ].

Ltac request_ok :=
  split; [ reflexivity
         | split; [ reflexivity
                  | split; [ first [ exists O; reflexivity | eexists; reflexivity ]
                           | reflexivity ] ] ].

Ltac metrics_ok :=
  repeat first [ apply Forall_nil | apply Forall_cons; [ eexists; eassumption | ] ].

Ltac summary_ok tac ret_tac :=
  unfold fit_summary; split;
  [ since_solve tac
  | split;
    [ world_ok
    | let v := fresh "v" in let Hv := fresh "Hv" in
      intros v Hv;
      first [ discriminate Hv
            | split; [ ret_tac
                     | eexists; eexists; eexists;
                       split; [ eassumption
                              | split; [ request_ok | metrics_ok ] ] ] ] ] ].

Lemma classifier_fit_summary lib (o : MLP_classifier.t) (w : World) :
  wp (MLP_classifier.fit_network lib)
     (fun res s' => fit_summary lib (Classifier o) w res (snd s')) (o, w).
Proof.
  destruct o as [X Y a b ep n l d st].
  unfold MLP_classifier.fit_network.
  destruct st;
    match goal with
    | |- wp _ _ (?o, _) =>
        wp_run (fit_event (Classifier o) w) ltac:(event_ok; exact I)
               ltac:(classifier_hook o w)
    end.
  all: summary_ok ltac:(event_ok; exact I) ltac:(exact I).
Qed.

Lemma regressor_hidden_loop (self : MLP_regressor.t) (L : Z) :
  forall n counter acc (s : MLP_regressor.t * World),
    n = iterations counter L ->
    while_counter n counter L (MLP_regressor.add_hidden self true) acc s
    = (inr (acc ++ List.concat (repeat
              [Dense (MLP_regressor._n_neurons self)
                     (MLP_regressor._activation self) None None;
               Dropout (MLP_regressor._dropout self)] n))%list, s).
Proof.
  induction n as [ | n IH]; intros counter acc s Hn.
  - cbn. rewrite app_nil_r. reflexivity.
  - cbn [while_counter repeat List.concat]. unfold iterations in Hn.
    destruct (Z.ltb_spec counter L); [ | lia ].
    unfold bind at 1. unfold MLP_regressor.add_hidden at 1.
    cbn [local_Dropout]. unfold bind at 1, lift, ret.
    rewrite IH by (unfold iterations; lia).
    rewrite <- !app_assoc. reflexivity.
Qed.

Lemma regressor_build_run (self : MLP_regressor.t)
      (input_dimension output_dimension : nat) (activation_output : string)
      (s : MLP_regressor.t * World) (b c : bool) :
  number_ne (MLP_regressor._dropout self) 0 = b ->
  (2 <=? MLP_regressor._layers self) = c ->
  MLP_regressor.build_network self input_dimension output_dimension
    activation_output s
  = (if negb b && c
     then inl (UnboundLocalError "Dropout")
     else inr (regressor_network (MLP_regressor._n_neurons self)
                 (MLP_regressor._activation self) (MLP_regressor._dropout self)
                 (MLP_regressor._layers self) input_dimension
                 (Dense (Z.of_nat output_dimension) (VStr activation_output)
                        None None)),
     (fst s, if b then emit_world (EPrint "Dropping out some neurons...") (snd s)
             else snd s)).
Proof.
  intros Hd HL. destruct s as [o w]. destruct b; cbn [negb andb fst snd].
  - unfold MLP_regressor.build_network, regressor_network.
    unfold block at 1. rewrite Hd.
    cbn [local_Dropout]; unfold bind, lift, emit, set_world, ret; cbn [fst snd].
    rewrite (regressor_hidden_loop self (MLP_regressor._layers self))
      by reflexivity.
    unfold iterations. cbn [fst app]. rewrite <- ?app_assoc. reflexivity.
  - destruct c.
    + apply regressor_build_fails_without_dropout; [ exact Hd | ].
      apply Z.leb_le. exact HL.
    + apply Z.leb_gt in HL.
      unfold MLP_regressor.build_network, regressor_network.
      unfold block at 1. rewrite Hd.
      unfold bind, ret, iterations; cbn [fst snd].
      replace (Z.to_nat (MLP_regressor._layers self - 1)) with O by lia.
      reflexivity.
Qed.

Lemma regressor_save_loop_run (L : Z) (s : MLP_regressor.t * World) (c : bool) :
  (0 <? L) = c ->
  while_counter (iterations 0 L) 0 L MLP_regressor.save_layer tt s
  = (if c then inl (NameError "classifier") else inr tt, (fst s, snd s)).
Proof.
  intros <-. destruct s as [o w]. cbn [fst snd].
  unfold iterations. destruct (Z.ltb_spec 0 L) as [H | H].
  - destruct (Z.to_nat (L - 0)) as [ | n] eqn:Hn; [ lia | ].
    cbn [while_counter]. destruct (Z.ltb_spec 0 L); [ reflexivity | lia ].
  - replace (Z.to_nat (L - 0)) with O by lia. reflexivity.
Qed.

Ltac regressor_hook :=
  idtac;
  lazymatch goal with
  | |- wp (MLP_regressor.build_network ?self _ _ _) _ _ =>
      destruct (number_ne (MLP_regressor._dropout self) 0) eqn:?;
      [ | destruct (2 <=? MLP_regressor._layers self) eqn:? ];
      (eapply wp_eq;
       [ apply regressor_build_run; first [ eassumption | reflexivity ]
       | cbn [negb andb]; wp_reduce ])
  | |- wp (while_counter _ _ ?L MLP_regressor.save_layer _) _ _ =>
      destruct (0 <? L) eqn:?;
      (eapply wp_eq; [ apply regressor_save_loop_run; eassumption | wp_reduce ])
  end.

Ltac regressor_event_ok :=
  first [ event_ok; first [ left; eassumption
                          | right; apply Z.leb_gt; eassumption ] ].

Ltac regressor_can_return :=
  split;
  [ first [ left; eassumption | right; apply Z.leb_gt; eassumption ]
  | first [ left; reflexivity | right; apply Z.ltb_ge; eassumption ] ].

Lemma regressor_fit_summary lib (o : MLP_regressor.t) (w : World) :
  wp (MLP_regressor.fit_network lib)
     (fun res s' => fit_summary lib (Regressor o) w res (snd s')) (o, w).
Proof.
  destruct o as [X Y n l a b ep d st].
  unfold MLP_regressor.fit_network.
  wp_run (fit_event (Regressor (MLP_regressor.mk X Y n l a b ep d st)) w)
         ltac:(exact I) regressor_hook.
  all: subst_flags.
  all: summary_ok regressor_event_ok regressor_can_return.
Qed.

Ltac encoder_event_ok :=
  first [ exact I | reflexivity | (left; reflexivity)
        | (split; [ reflexivity | left; reflexivity ])
        | (split; [ reflexivity | right; left; reflexivity ])
        | (split; [ reflexivity | right; right; left; reflexivity ])
        | (split; [ reflexivity
                  | split; [ reflexivity
                           | split; [ exists O; reflexivity | exact I ] ] ]) ].

Lemma autoencoder_fit_summary lib (o : Autoencoder.t) (w : World) :
  wp (Autoencoder.fit lib)
     (fun res s' => fit_summary lib (Encoder o) w res (snd s')) (o, w).
Proof.
  destruct o as [X n a b ep st].
  unfold Autoencoder.fit.
  wp_run (fit_event (Encoder (Autoencoder.mk X n a b ep st)) w)
         ltac:(exact I) fail.
  all: summary_ok encoder_event_ok ltac:(discriminate).
Qed.

Lemma fit_summary_holds lib (r : recipe) (w : World) :
  fit_summary lib r w (fit_outcome lib r w) (fit_world lib r w).
Proof.
  destruct r as [o | o | o].
  - exact (classifier_fit_summary lib o w).
  - exact (autoencoder_fit_summary lib o w).
  - exact (regressor_fit_summary lib o w).
Qed.

(* ================================================================== *)
(** ** What a fit does and does not do *)
(* ================================================================== *)

Lemma fit_events lib (r : recipe) (w : World) :
  Forall (fit_event r w) (fresh w (fit_world lib r w)).
Proof. apply since_fresh. exact (proj1 (fit_summary_holds lib r w)). Qed.

(** X5. A fit dumps text files only when the object is set to: with
    [save_txt] false on an [MLP_classifier], false or never assigned on
    an [Autoencoder], and in every case on an [MLP_regressor] (whose dump
    loop cannot run), no [np.savetxt] takes place. *)
Theorem no_text_dump_unless_saving lib (r : recipe) (w : World) :
  writes_weights r = false ->
  ~ Exists is_savetxt (fresh w (fit_world lib r w)).
Proof.
  intros Hoff Hex. apply Exists_exists in Hex. destruct Hex as (e & Hin & He).
  pose proof (fit_events lib r w) as Hall. rewrite Forall_forall in Hall.
  specialize (Hall e Hin). destruct e; try contradiction.
  cbn in Hall. destruct Hall as [Hon _]. congruence.
Qed.

(** X6. [MLP_classifier.fit_network] and [Autoencoder.fit] never load
    weights back: the classifier predicts with the weights of the last
    epoch, although it has Keras write the best ones to
    [best_weights.h5].  [MLP_regressor.fit_network] loads one file only,
    [best_weights2c.h5] in its run directory. *)
Theorem only_regressor_loads_checkpoint lib (r : recipe) (w : World) :
  Forall (fun e =>
            forall p, e = ELoadWeights p ->
              exists o, r = Regressor o
                /\ p = run_directory r w ++ "/best_weights2c.h5")
         (fresh w (fit_world lib r w)).
Proof.
  eapply Forall_impl; [ | apply fit_events ].
  intros e He p ->. cbn in He.
  destruct r as [o | o | o]; cbn in He; try contradiction.
  destruct He as [<- | []]. exists o. auto.
Qed.

(** X7. Every training request of a fit carries the batch size and the
    number of epochs that the properties read back, and the network
    built from the stored neurons, layers, activation and dropout (for
    some number of output units). *)
Theorem training_uses_stored_configuration lib (r : recipe) (w : World) :
  Forall (fun e =>
            forall net b ep, e = ETrain net b ep ->
              stored r batch_size = VInt b
              /\ stored r n_epochs = VInt ep
              /\ exists out, net = network_of r out)
         (fresh w (fit_world lib r w)).
Proof.
  eapply Forall_impl; [ | apply fit_events ].
  intros e He net b ep ->. cbn in He. tauto.
Qed.

Lemma rejected_stored (r : recipe) (h : hyperparameter) (v : pyval)
      (w : World) msg r' w' :
  assign r h v w = Some (inl (Exception msg), (r', w')) ->
  stored r' h = v.
Proof.
  intros Hrun. destruct r as [o | o | o]; cbn [assign] in Hrun.
  - destruct (run_setter_keeps _ _ (classifier_getter h) _ _ _ _ _ _
                (fun set => classifier_keeps h set v) Hrun) as (o' & -> & Hg).
    exact Hg.
  - destruct (run_setter_keeps _ _ (autoencoder_getter h) _ _ _ _ _ _
                (fun set => autoencoder_keeps h set v) Hrun) as (o' & -> & Hg).
    exact Hg.
  - destruct (run_setter_keeps _ _ (regressor_getter h) _ _ _ _ _ _
                (fun set => regressor_keeps h set v) Hrun) as (o' & -> & Hg).
    exact Hg.
Qed.

(** X8. A batch size or a number of epochs that its setter refused is
    what a later fit of the same object trains with: the refused value
    stays in the field, and every training request of the fit carries
    it. *)
Theorem rejected_value_is_trained_with lib (r : recipe) (h : hyperparameter)
        (z : Z) (w0 : World) msg r' w1 (w : World) :
  assign r h (VInt z) w0 = Some (inl (Exception msg), (r', w1)) ->
  Forall (fun e => forall z', training_value h e = Some z' -> z' = z)
         (fresh w (fit_world lib r' w)).
Proof.
  intros Hrun. apply rejected_stored in Hrun.
  eapply Forall_impl; [ | apply fit_events ].
  intros e He z' Hz. destruct e; try (destruct h; discriminate Hz).
  cbn in He. destruct He as (Hb & Hep & _).
  destruct h; try discriminate Hz; injection Hz as <-; congruence.
Qed.

(** X9. Every directory that a fit creates or enters is its run
    directory; the only file it opens, writes and closes is
    [recap_training.txt] in that directory, and its figures are saved
    there ([accuracy_history.eps] and [loss_history.eps] for the
    classifier, [loss_history.eps] for the other two). *)
Theorem fit_works_in_run_directory lib (r : recipe) (w : World) :
  Forall (run_file r w) (fresh w (fit_world lib r w)).
Proof.
  eapply Forall_impl; [ | apply fit_events ].
  intros e He. destruct e; cbn in He |- *; auto.
Qed.

(** X10. The text dumps of a fit have fixed names.  The classifier writes
    [Weights_HL<i>.txt] and [Biases_HL<i>.txt] into its run directory,
    for layer indices [i] from 0 below the number of hidden layers; the
    autoencoder writes [AEweightsHL1.txt], [AEbiasHL1.txt] and
    [Encoded_matrix.txt] appended to the path of its run directory. *)
Theorem text_dumps_are_named lib (r : recipe) (w : World) :
  Forall (fun e => forall p, e = ESavetxt p -> text_dump r (run_directory r w) p)
         (fresh w (fit_world lib r w)).
Proof.
  eapply Forall_impl; [ | apply fit_events ].
  intros e He p ->. cbn in He. tauto.
Qed.

Lemma append_inj_left (d x y : string) : d ++ x = d ++ y -> x = y.
Proof.
  induction d as [ | c d IH]; cbn; intros H; [ exact H | ].
  injection H as H. auto.
Qed.

(** X11. The text files that [Autoencoder.fit] dumps are not in its run
    directory: their paths are the directory's path with the file name
    appended without a separator, so they land beside the directory,
    under names that start with its name. *)
Theorem autoencoder_dumps_beside_run_directory lib (o : Autoencoder.t)
        (w : World) :
  Forall (fun e =>
            forall p, e = ESavetxt p ->
              ~ exists name, p = path_join (run_directory (Encoder o) w) name)
         (fresh w (fit_world lib (Encoder o) w)).
Proof.
  eapply Forall_impl; [ | apply fit_events ].
  intros e He p -> (name & Hname). cbn in He. destruct He as [_ Hp].
  unfold path_join in Hname at 1.
  destruct Hp as [<- | [<- | [<- | []]]];
    apply append_inj_left in Hname; discriminate Hname.
Qed.

(** X12. A fit returns only if the training call of Keras succeeded, for
    the request of the fit (the stored batch size and epochs, the network
    of the stored hyperparameters, and as checkpoint [best_weights.h5] or
    [best_weights2c.h5] in the run directory, none for the autoencoder),
    with a history that holds every metric the fit plots: [acc],
    [val_acc], [loss] and [val_loss] for the classifier, [loss] and
    [val_loss] for the other two. *)
Theorem return_requires_plotted_metrics lib (r : recipe) (w : World) v :
  fit_outcome lib r w = inr v ->
  exists req m h,
    keras_fit lib req = inr (m, h)
    /\ request_of r w req
    /\ Forall (fun k => exists s, dict_get h k = inr s) (metrics_plotted r).
Proof.
  intros Hv.
  destruct (fit_summary_holds lib r w) as (_ & _ & Hret).
  destruct (Hret v Hv) as [_ H]. exact H.
Qed.

(** X13. A fit never goes back to the directory it was started in.  Either
    it fails before it has a run directory, and the working directory
    and the existing directories are as before; or the run directory did
    not exist, has been created, and is the working directory when the
    fit ends, whether by returning or by raising. *)
Theorem fit_stays_in_run_directory lib (r : recipe) (w : World) :
  let d := run_directory r w in
  let W := fit_world lib r w in
  (cwd W = cwd w /\ dirs W = dirs w /\ exists e, fit_outcome lib r w = inl e)
  \/ (~ In d (dirs w) /\ cwd W = d /\ dirs W = d :: dirs w).
Proof.
  exact (proj1 (proj2 (fit_summary_holds lib r w))).
Qed.

(** X14. [MLP_regressor.fit_network] returns only if the hidden-layer
    loop could run (a dropout rate other than 0, or fewer than two
    layers) and the weight dump did not (save_txt false, or no layer to
    dump): the loop reads the name [Dropout] that only the dropout branch
    binds, and the dump reads the name [classifier] that the module never
    defines. *)
Theorem regressor_returns_only_if lib (o : MLP_regressor.t) (w : World) v :
  fit_outcome lib (Regressor o) w = inr v ->
  (number_ne (MLP_regressor._dropout o) 0 = true \/ MLP_regressor._layers o < 2)
  /\ (MLP_regressor.save_txt o = false \/ MLP_regressor._layers o <= 0).
Proof.
  intros Hv.
  destruct (fit_summary_holds lib (Regressor o) w) as (_ & _ & Hret).
  destruct (Hret v Hv) as [H _]. exact H.
Qed.

(* ================================================================== *)
(** ** Fits that fail early *)
(* ================================================================== *)

Lemma since_absent (P : event -> Prop) w W :
  since (fun e => ~ P e) w W -> ~ Exists P (fresh w W).
Proof.
  intros H Hex. apply since_fresh in H. apply Exists_exists in Hex.
  destruct Hex as (e & Hin & He). rewrite Forall_forall in H.
  exact (H e Hin He).
Qed.

Ltac neither := split; not_it.

Ltac stops_ok :=
  unfold stops_at_recap; split;
  [ eexists; reflexivity
  | split;
    [ since_solve neither
    | first [ left; eexists; reflexivity | right; since_solve not_it ] ] ].

Ltac no_string H :=
  lazymatch goal with
  | |- context [VStr ?s] => exfalso; exact (H s eq_refl)
  end.

Lemma classifier_stops_at_recap lib (o : MLP_classifier.t) (w : World) :
  (forall s, MLP_classifier._activation o <> VStr s) ->
  wp (MLP_classifier.fit_network lib)
     (fun res s' => stops_at_recap w res (snd s')) (o, w).
Proof.
  destruct o as [X Y a b ep n l d st]. cbn [MLP_classifier._activation].
  intros Ha. unfold MLP_classifier.fit_network.
  destruct a as [ | z | f | s | al nm]; [ | | | exfalso; exact (Ha s eq_refl) | ];
    wp_run (fun _ : event => True) ltac:(exact I) fail; stops_ok.
Qed.

Lemma autoencoder_stops_at_recap lib (o : Autoencoder.t) (w : World) :
  (forall s, Autoencoder._activation o <> VStr s) ->
  wp (Autoencoder.fit lib)
     (fun res s' => stops_at_recap w res (snd s')) (o, w).
Proof.
  destruct o as [X n a b ep st]. cbn [Autoencoder._activation].
  intros Ha. unfold Autoencoder.fit.
  destruct a as [ | z | f | s | al nm]; [ | | | exfalso; exact (Ha s eq_refl) | ];
    wp_run (fun _ : event => True) ltac:(exact I) fail; stops_ok.
Qed.

Lemma regressor_stops_at_recap lib (o : MLP_regressor.t) (w : World) :
  (forall s, MLP_regressor._activation o <> VStr s) ->
  wp (MLP_regressor.fit_network lib)
     (fun res s' => stops_at_recap w res (snd s')) (o, w).
Proof.
  destruct o as [X Y n l a b ep d st]. cbn [MLP_regressor._activation].
  intros Ha. unfold MLP_regressor.fit_network.
  destruct a as [ | z | f | s | al nm]; [ | | | exfalso; exact (Ha s eq_refl) | ];
    wp_run (fun _ : event => True) ltac:(exact I) fail; stops_ok.
Qed.

(** X15. With an activation that is not a string (the [LeakyReLU] object
    that the setter stores for ['leaky_relu'], or any other object), no
    fit can train: it ends in an exception, never starts the training
    and never closes the recap file; once the recap file is open, the
    exception is the [TypeError] of concatenating the activation to the
    last recap line. *)
Theorem fit_fails_on_activation_object lib (r : recipe) (w : World) :
  (forall s, activation_of r <> VStr s) ->
  (exists e, fit_outcome lib r w = inl e)
  /\ ~ Exists is_training (fresh w (fit_world lib r w))
  /\ ~ Exists is_close (fresh w (fit_world lib r w))
  /\ (Exists is_open (fresh w (fit_world lib r w)) ->
      exists msg, fit_outcome lib r w = inl (TypeError msg)).
Proof.
  intros Ha.
  assert (stops_at_recap w (fit_outcome lib r w) (fit_world lib r w))
    as (He & Hno & Hty).
  { destruct r as [o | o | o]; cbn [activation_of] in Ha.
    - exact (classifier_stops_at_recap lib o w Ha).
    - exact (autoencoder_stops_at_recap lib o w Ha).
    - exact (regressor_stops_at_recap lib o w Ha). }
  split; [ exact He | ].
  split; [ | split ].
  - apply since_absent. destruct Hno as (evs & Ht & Hall). exists evs.
    split; [ exact Ht | ]. eapply Forall_impl; [ | exact Hall ]. cbn. tauto.
  - apply since_absent. destruct Hno as (evs & Ht & Hall). exists evs.
    split; [ exact Ht | ]. eapply Forall_impl; [ | exact Hall ]. cbn. tauto.
  - intros Hopen. destruct Hty as [Hty | Hnone]; [ exact Hty | ].
    destruct (since_absent _ _ _ Hnone Hopen).
Qed.



(** X17. [MLP_classifier.fit_network] converts a single-column [Y] before
    it touches the file system: when the conversion raises (the builtin
    [max] on an empty [Y], or [np.zeros] refusing its arguments), the
    fit raises the same exception, and all it has done is print the
    conversion notice: no directory exists that did not before, and the
    object still holds its [Y]. *)
Theorem label_conversion_fails_first lib (o : MLP_classifier.t) (w : World) e :
  shape1 (MLP_classifier.Y o) = 1%nat ->
  MLP_classifier.idx_to_labels lib (MLP_classifier.Y o) = inl e ->
  MLP_classifier.fit_network lib (o, w)
  = (inl e,
     (o, emit_world
           (EPrint "Changing idx shape in the correct format: [n x k]..") w)).
Proof.
  intros Hone Hfail.
  enough (wp (MLP_classifier.fit_network lib)
             (fun res s' =>
                res = inl e
                /\ s' = (o, emit_world
                              (EPrint "Changing idx shape in the correct format: [n x k]..") w))
             (o, w)) as [H1 H2].
  { destruct (MLP_classifier.fit_network lib (o, w)) as [res s'].
    cbn [fst snd] in H1, H2. subst. reflexivity. }
  unfold MLP_classifier.fit_network.
  apply wp_bind, wp_get_self. cbn [fst]. apply wp_bind.
  apply Nat.eqb_eq in Hone. rewrite Hone.
  apply wp_bind, wp_emit. cbn [fst snd]. apply wp_bind, wp_lift.
  rewrite Hfail. split; reflexivity.
Qed.

(* ================================================================== *)
(** ** The setup of a fit *)
(* ================================================================== *)










(* ================================================================== *)
(** ** The layers of the networks *)
(* ================================================================== *)

Lemma dropout_count_app (l l' : list layer) :
  dropout_count (l ++ l') = (dropout_count l + dropout_count l')%nat.
Proof.
  induction l as [ | x l IH]; [ reflexivity | ].
  destruct x; cbn [app dropout_count]; rewrite IH; reflexivity.
Qed.

Lemma dropout_count_blocks (N : Z) (a : pyval) (d : number) (n : nat) :
  dropout_count (List.concat (repeat (block (Dense N a None None) d) n))
  = if number_ne d 0 then n else O.
Proof.
  induction n as [ | n IH]; [ destruct (number_ne d 0); reflexivity | ].
  cbn [repeat List.concat]. rewrite dropout_count_app, IH.
  unfold block. destruct (number_ne d 0); reflexivity.
Qed.

Lemma counts_pairs (N : Z) (a : pyval) (d : number) (n : nat) :
  hidden_count (List.concat (repeat [Dense N a None None; Dropout d] n)) = n
  /\ dropout_count (List.concat (repeat [Dense N a None None; Dropout d] n)) = n.
Proof.
  induction n as [ | n [IH1 IH2]]; [ split; reflexivity | ].
  cbn [repeat List.concat app hidden_count dropout_count].
  rewrite IH1, IH2. split; reflexivity.
Qed.

Lemma layers_at_least_one (L : Z) :
  S (Z.to_nat (L - 1)) = Z.to_nat (Z.max 1 L).
Proof. lia. Qed.

(** X18. Whenever the network construction of
    [MLP_classifier.fit_network] yields a network of layers that Keras
    accepts, it has, besides the output layer, [max(1, layers)] dense
    hidden layers (one even when a refused value of 0 or less is
    stored), and as many dropout layers when the dropout rate is not 0,
    none when it is. *)
Theorem classifier_network_layers (self : MLP_classifier.t)
        (input_dimension number_of_classes : nat) (activation_output : string)
        (s : MLP_classifier.t * World) (net : list layer) :
  outcome (MLP_classifier.build_network self input_dimension
             number_of_classes activation_output s) = inr net ->
  Forall keras_accepts net ->
  hidden_count net = S (Z.to_nat (Z.max 1 (MLP_classifier._layers self)))
  /\ dropout_count net
     = if number_ne (MLP_classifier._dropout self) 0
       then Z.to_nat (Z.max 1 (MLP_classifier._layers self))
       else O.
Proof.
  unfold outcome.
  rewrite (classifier_build_run self _ _ _ s _ eq_refl). cbn [fst].
  intros Hnet _. injection Hnet as <-.
  rewrite <- layers_at_least_one. unfold expected_network.
  rewrite !hidden_count_app, !dropout_count_app.
  rewrite (hidden_count_blocks (MLP_classifier._n_neurons self,
                                MLP_classifier._activation self)
             (MLP_classifier._dropout self)), dropout_count_blocks.
  unfold block.
  destruct (number_ne (MLP_classifier._dropout self) 0);
    cbn [hidden_count dropout_count fst snd]; split; lia.
Qed.

(** X19. Whenever the network construction of
    [MLP_regressor.fit_network] yields a network of layers that Keras
    accepts, the dropout rate is not 0 or fewer than two layers were
    asked for (otherwise the loop reads the unbound name [Dropout]), and
    the network has, besides the output layer, [max(1, layers)] dense
    hidden layers, each followed by a dropout layer when the rate is
    not 0. *)
Theorem regressor_network_layers (self : MLP_regressor.t)
        (input_dimension output_dimension : nat) (activation_output : string)
        (s : MLP_regressor.t * World) (net : list layer) :
  outcome (MLP_regressor.build_network self input_dimension
             output_dimension activation_output s) = inr net ->
  Forall keras_accepts net ->
  (number_ne (MLP_regressor._dropout self) 0 = true
   \/ MLP_regressor._layers self < 2)
  /\ hidden_count net = S (Z.to_nat (Z.max 1 (MLP_regressor._layers self)))
  /\ dropout_count net
     = if number_ne (MLP_regressor._dropout self) 0
       then Z.to_nat (Z.max 1 (MLP_regressor._layers self))
       else O.
Proof.
  unfold outcome.
  rewrite (regressor_build_run self _ _ _ s _ _ eq_refl eq_refl).
  cbn [fst].
  destruct (number_ne (MLP_regressor._dropout self) 0) eqn:Hd; cbn [negb andb].
  - intros Hnet _. injection Hnet as <-. split; [ left; reflexivity | ].
    rewrite <- layers_at_least_one. unfold regressor_network.
    rewrite !hidden_count_app, !dropout_count_app.
    destruct (counts_pairs (MLP_regressor._n_neurons self)
                (MLP_regressor._activation self) (MLP_regressor._dropout self)
                (Z.to_nat (MLP_regressor._layers self - 1))) as [-> ->].
    unfold block. rewrite Hd. cbn [hidden_count dropout_count]. split; lia.
  - destruct (Z.leb_spec 2 (MLP_regressor._layers self)) as [HL | HL];
      [ discriminate | ].
    intros Hnet _. injection Hnet as <-. split; [ right; exact HL | ].
    unfold regressor_network.
    replace (Z.to_nat (MLP_regressor._layers self - 1)) with O by lia.
    replace (Z.to_nat (Z.max 1 (MLP_regressor._layers self))) with 1%nat by lia.
    unfold block. rewrite Hd. cbn. split; reflexivity.
Qed.

(* ================================================================== *)
(** ** The further statements at the sample inputs *)
(* ================================================================== *)

Lemma integer_assignment_accepted_iff_witness :
  exists res r' w',
    assign (Encoder sample_autoencoder) neurons (VInt 2) sample_world
    = Some (res, (r', w'))
    /\ ((res = inr tt
         <-> 0 < 2 /\ below 2 (upper_bound (Encoder sample_autoencoder) neurons))
        /\ stored r' neurons = VInt 2
        /\ w' = sample_world).
Proof.
  eexists. eexists. eexists. split; [ cbv; reflexivity | ].
  apply (integer_assignment_accepted_iff (Encoder sample_autoencoder) neurons 2
           sample_world);
    [ discriminate | cbv; reflexivity ].
Defined.

Lemma dropout_assignment_accepted_iff_witness :
  exists res r' w',
    assign (Regressor sample_regressor) dropout (VFloat (FNum (1 # 2)))
           sample_world
    = Some (res, (r', w'))
    /\ ((res = inr tt <-> float_in_unit (FNum (1 # 2)))
        /\ stored r' dropout = VFloat (FNum (1 # 2))
        /\ w' = sample_world).
Proof.
  eexists. eexists. eexists. split; [ cbv; reflexivity | ].
  apply (dropout_assignment_accepted_iff (Regressor sample_regressor)
           (FNum (1 # 2)) sample_world).
  cbv. reflexivity.
Defined.

Lemma assignment_changes_one_attribute_witness :
  exists res r' w',
    assign (Classifier sample_classifier) layers (VInt 0) sample_world
    = Some (res, (r', w'))
    /\ ((forall h', h' <> layers ->
           stored r' h' = stored (Classifier sample_classifier) h')
        /\ activation_of r' = activation_of (Classifier sample_classifier)
        /\ fixed_attributes r' = fixed_attributes (Classifier sample_classifier)
        /\ w' = sample_world).
Proof.
  eexists. eexists. eexists. split; [ cbv; reflexivity | ].
  eapply (assignment_changes_one_attribute (Classifier sample_classifier) layers
           (VInt 0) sample_world).
  cbv. reflexivity.
Defined.

Lemma no_text_dump_unless_saving_witness :
  ~ Exists is_savetxt
      (fresh sample_world
         (fit_world sample_lib (Classifier sample_classifier) sample_world)).
Proof.
  apply (no_text_dump_unless_saving sample_lib (Classifier sample_classifier)
           sample_world).
  reflexivity.
Defined.

Lemma rejected_value_is_trained_with_witness :
  exists msg r' w1,
    assign (Classifier sample_classifier) batch_size (VInt 0) sample_world
    = Some (inl (Exception msg), (r', w1))
    /\ Forall (fun e => forall z', training_value batch_size e = Some z' -> z' = 0)
              (fresh sample_world (fit_world sample_lib r' sample_world)).
Proof.
  eexists. eexists. eexists. split; [ cbv; reflexivity | ].
  eapply (rejected_value_is_trained_with sample_lib
            (Classifier sample_classifier) batch_size 0 sample_world).
  cbv. reflexivity.
Defined.

Lemma return_requires_plotted_metrics_witness :
  exists req m h,
    keras_fit sample_lib req = inr (m, h)
    /\ request_of (Classifier sample_classifier) sample_world req
    /\ Forall (fun k => exists s, dict_get h k = inr s)
              (metrics_plotted (Classifier sample_classifier)).
Proof.
  apply (return_requires_plotted_metrics sample_lib
           (Classifier sample_classifier) sample_world
           (RArray (mk_ndarray 3 1 []))).
  vm_compute. reflexivity.
Defined.

Lemma regressor_returns_only_if_witness :
  (number_ne (MLP_regressor._dropout sample_regressor) 0 = true
   \/ MLP_regressor._layers sample_regressor < 2)
  /\ (MLP_regressor.save_txt sample_regressor = false
      \/ MLP_regressor._layers sample_regressor <= 0).
Proof.
  apply (regressor_returns_only_if sample_lib sample_regressor sample_world
           (RArray (mk_ndarray 3 1 []))).
  vm_compute. reflexivity.
Defined.

Lemma fit_fails_on_activation_object_witness :
  (exists e,
      fit_outcome sample_lib (Classifier leaky_classifier) sample_world = inl e)
  /\ ~ Exists is_training
         (fresh sample_world
            (fit_world sample_lib (Classifier leaky_classifier) sample_world))
  /\ ~ Exists is_close
         (fresh sample_world
            (fit_world sample_lib (Classifier leaky_classifier) sample_world))
  /\ (Exists is_open
        (fresh sample_world
           (fit_world sample_lib (Classifier leaky_classifier) sample_world)) ->
      exists msg,
        fit_outcome sample_lib (Classifier leaky_classifier) sample_world
        = inl (TypeError msg)).
Proof.
  apply (fit_fails_on_activation_object sample_lib (Classifier leaky_classifier)
           sample_world).
  intros s H. vm_compute in H. discriminate H.
Defined.


Lemma label_conversion_fails_first_witness :
  MLP_classifier.fit_network sample_lib (column_classifier, sample_world)
  = (inl (TypeError "Cannot interpret the argument as a data type"),
     (column_classifier,
      emit_world (EPrint "Changing idx shape in the correct format: [n x k]..")
        sample_world)).
Proof.
  apply (label_conversion_fails_first sample_lib column_classifier sample_world).
  - reflexivity.
  - vm_compute. reflexivity.
Defined.


Lemma classifier_network_layers_witness :
  exists net,
    outcome (MLP_classifier.build_network sample_classifier 2 2 "softmax"
               (sample_classifier, sample_world)) = inr net
    /\ Forall keras_accepts net
    /\ hidden_count net = 2%nat /\ dropout_count net = O.
Proof.
  eexists. split; [ vm_compute; reflexivity | ].
  assert (Forall keras_accepts
            [Dense 2 (VStr "relu") (Some "random_normal") (Some 2%nat);
             Dense 2 (VStr "softmax") (Some "random_normal") None]) as Hok.
  { repeat constructor; try lia; eexists; (split; [ reflexivity | ]);
      cbn; tauto. }
  split; [ exact Hok | ].
  apply (classifier_network_layers sample_classifier 2 2 "softmax"
           (sample_classifier, sample_world)).
  - vm_compute. reflexivity.
  - exact Hok.
Defined.

Lemma regressor_network_layers_witness :
  exists net,
    outcome (MLP_regressor.build_network sample_regressor 2 2 "linear"
               (sample_regressor, sample_world)) = inr net
    /\ Forall keras_accepts net
    /\ (number_ne (MLP_regressor._dropout sample_regressor) 0 = true
        \/ MLP_regressor._layers sample_regressor < 2)
    /\ hidden_count net = 2%nat /\ dropout_count net = O.
Proof.
  eexists. split; [ vm_compute; reflexivity | ].
  assert (Forall keras_accepts
            [Dense 2 (VStr "relu") (Some "normal") (Some 2%nat);
             Dense 2 (VStr "linear") None None]) as Hok.
  { repeat constructor; try lia; eexists; (split; [ reflexivity | ]);
      cbn; tauto. }
  split; [ exact Hok | ].
  apply (regressor_network_layers sample_regressor 2 2 "linear"
           (sample_regressor, sample_world)).
  - vm_compute. reflexivity.
  - exact Hok.
Defined.
